(** * hashnode-wrapped: the statistics transform and the submit workflow

    A shallow embedding of [State.process_stats] and [State.handle_submit]
    of [hashnode_wrapped_2.py], and the properties its specification states
    about them.

    Conventions of the embedding.
    - A decoded JSON document is a [pyobj]: [None], [bool], [int], [str],
      [list] and [dict].  Numbers are integers (the GraphQL schema types
      every numeric field of the query [Int]); an [int] is unbounded, a [Z].
    - A [dict] is an association list read by its first binding of a key.
    - A Python exception is a constructor of [exn]; a computation that can
      raise returns a [result].  Every [exn] here is a subclass of
      [Exception]; the two of [httpx] carry the text [str(e)] gives.
    - [datetime.fromisoformat] and [repr] of a container belong to the
      Python library, not to the program: the aggregator takes them as
      parameters of a section.  [iso_parse] models the former on the shape
      [YYYY-MM-DD[*HH:MM[:SS[.fff[fff]]]][(+|-)HH:MM]], which every CPython
      from 3.7 on reads in the same way.
    - [a / b] on integers gives a binary64 number; it is kept as the exact
      dyadic rational it is, so that the division and the [.1f] format are
      integer arithmetic.
    - The record is a tree of values wherever only its content matters.
      Where its identity matters, it is a graph of mutable objects in a
      store, and the two embeddings of [process_stats] are related.
    - Text written to the standard output by [print] is not modelled. *)

From Stdlib Require Import ZArith List String Ascii Bool Lia.
Import ListNotations.

Set Warnings "-register-all".

Local Open Scope string_scope.
Local Open Scope Z_scope.

(** ** Python values *)

Inductive pyobj : Type :=
| VNone : pyobj
| VBool : bool -> pyobj
| VInt : Z -> pyobj
| VStr : string -> pyobj
| VList : list pyobj -> pyobj
| VDict : list (string * pyobj) -> pyobj.

Inductive exn : Type :=
| AttributeError
| TypeError
| ValueError
| KeyError
| IndexError
| ZeroDivisionError
| OverflowError
| JSONDecodeError
| HTTPStatusError (status : Z) (message : string)
| RequestError (message : string).

Inductive result (A : Type) : Type :=
| Ok : A -> result A
| Raise : exn -> result A.

Arguments Ok {A} _.
Arguments Raise {A} _.

Definition rbind {A B : Type} (r : result A) (k : A -> result B) : result B :=
  match r with
  | Ok a => k a
  | Raise e => Raise e
  end.

Declare Scope result_scope.
Delimit Scope result_scope with result.
Notation "'let?' x ':=' r 'in' k" := (rbind r (fun x => k))
  (at level 10, x name, r at level 100, k at level 200) : result_scope.
Local Open Scope result_scope.

(** [d.get(key)] on the association list of a dict. *)
Fixpoint lookup {V : Type} (key : string) (d : list (string * V)) : option V :=
  match d with
  | [] => None
  | (k, v) :: d' => if String.eqb k key then Some v else lookup key d'
  end.

(** [bool(v)], the truth value the [and] and the conditional expression
    test. *)
Definition truthy (v : pyobj) : bool :=
  match v with
  | VNone => false
  | VBool b => b
  | VInt z => negb (z =? 0)
  | VStr s => negb (String.eqb s "")
  | VList l => match l with [] => false | _ => true end
  | VDict d => match d with [] => false | _ => true end
  end.

(** [v.get(key, default)]: only a dict has the method. *)
Definition py_get (v : pyobj) (key : string) (default : pyobj) : result pyobj :=
  match v with
  | VDict d => Ok (match lookup key d with Some x => x | None => default end)
  | _ => Raise AttributeError
  end.

(** [v[key]] with a string key. *)
Definition py_getitem (v : pyobj) (key : string) : result pyobj :=
  match v with
  | VDict d => match lookup key d with Some x => Ok x | None => Raise KeyError end
  | _ => Raise TypeError
  end.

(** [key in v] with a string key: a dict tests its keys, a list its
    elements, a string its substrings; the other values are not
    containers. *)
Fixpoint prefixb (p s : string) : bool :=
  match p, s with
  | EmptyString, _ => true
  | String a p', String b s' => Ascii.eqb a b && prefixb p' s'
  | String _ _, EmptyString => false
  end.

Fixpoint substringb (p s : string) : bool :=
  prefixb p s ||
  match s with
  | EmptyString => false
  | String _ s' => substringb p s'
  end.

Definition obj_is_str (key : string) (v : pyobj) : bool :=
  match v with VStr s => String.eqb s key | _ => false end.

Definition py_contains (key : string) (v : pyobj) : result bool :=
  match v with
  | VDict d => Ok (match lookup key d with Some _ => true | None => false end)
  | VList l => Ok (existsb (obj_is_str key) l)
  | VStr s => Ok (substringb key s)
  | _ => Raise TypeError
  end.

(** The elements a [for] loop draws from [v]: the items of a list, the keys
    of a dict, the one-character strings of a string. *)
Fixpoint chars (s : string) : list pyobj :=
  match s with
  | EmptyString => []
  | String c s' => VStr (String c EmptyString) :: chars s'
  end.

Fixpoint dict_keys (d : list (string * pyobj)) (seen : list string) : list pyobj :=
  match d with
  | [] => []
  | (k, _) :: d' =>
      if existsb (String.eqb k) seen then dict_keys d' seen
      else VStr k :: dict_keys d' (k :: seen)
  end.

Definition py_iter (v : pyobj) : result (list pyobj) :=
  match v with
  | VList l => Ok l
  | VDict d => Ok (dict_keys d [])
  | VStr s => Ok (chars s)
  | _ => Raise TypeError
  end.

(** [len(v)]. *)
Definition py_len (v : pyobj) : result Z :=
  match v with
  | VList l => Ok (Z.of_nat (List.length l))
  | VDict d => Ok (Z.of_nat (List.length (dict_keys d [])))
  | VStr s => Ok (Z.of_nat (String.length s))
  | _ => Raise TypeError
  end.

(** [acc + v] for an [int] accumulator: [bool] is a subclass of [int]. *)
Definition py_add (acc : Z) (v : pyobj) : result Z :=
  match v with
  | VInt z => Ok (acc + z)
  | VBool b => Ok (acc + (if b then 1 else 0))
  | _ => Raise TypeError
  end.

(** [s.replace(old, new)] for a one-character [old]: every occurrence is
    replaced. *)
Fixpoint str_replace (old : ascii) (new : string) (s : string) : string :=
  match s with
  | EmptyString => EmptyString
  | String c s' =>
      if Ascii.eqb c old then new ++ str_replace old new s'
      else String c (str_replace old new s')
  end.

(** [v.replace("Z", "+00:00")]: only a string has the method. *)
Definition py_replace_Z (v : pyobj) : result string :=
  match v with
  | VStr s => Ok (str_replace "Z"%char "+00:00" s)
  | _ => Raise AttributeError
  end.

(** [s.lower()] on ASCII text. *)
Definition lower_ascii (c : ascii) : ascii :=
  let n := nat_of_ascii c in
  if (Nat.leb 65 n && Nat.leb n 90)%bool then ascii_of_nat (n + 32) else c.

Fixpoint lower (s : string) : string :=
  match s with
  | EmptyString => EmptyString
  | String c s' => String (lower_ascii c) (lower s')
  end.

(** A match that ignores the case, said without [lower] and without the
    search: [c] is the capital of [k] when it is one of A..Z and [k] is
    the character 32 places further; two characters are the same letter
    when they are equal or one is the capital of the other; [word] is
    mentioned in [text] when [text] is some text, then the letters of
    [word] each in either case, then some text. *)
Definition is_capital (c : ascii) : bool :=
  (Nat.leb 65 (nat_of_ascii c) && Nat.leb (nat_of_ascii c) 90)%bool.

Definition capital_of (c k : ascii) : Prop :=
  is_capital c = true /\ nat_of_ascii k = (nat_of_ascii c + 32)%nat.

Definition same_letter (c k : ascii) : Prop :=
  c = k \/ capital_of c k \/ capital_of k c.

Fixpoint same_ignoring_case (text word : string) : Prop :=
  match text, word with
  | EmptyString, EmptyString => True
  | String c text', String k word' =>
      same_letter c k /\ same_ignoring_case text' word'
  | _, _ => False
  end.

Definition mentions (word text : string) : Prop :=
  exists before middle after,
    text = before ++ middle ++ after /\ same_ignoring_case middle word.

Fixpoint no_capital (s : string) : bool :=
  match s with
  | EmptyString => true
  | String c s' => negb (is_capital c) && no_capital s'
  end.

(** ** Number formatting *)

(** The decimal digits of [n >= 0], the most significant first: [fuel]
    bounds their number, and the binary logarithm of [n] is enough of it. *)
Definition digit_char (d : Z) : ascii := ascii_of_nat (48 + Z.to_nat d).

Fixpoint digits_of (fuel : nat) (n : Z) : string :=
  match fuel with
  | O => String (digit_char n) EmptyString
  | S fuel' =>
      if n <? 10 then String (digit_char n) EmptyString
      else digits_of fuel' (n / 10) ++ String (digit_char (n mod 10)) EmptyString
  end.

Definition str_nat (n : Z) : string := digits_of (Z.to_nat (Z.log2 n)) n.

(** [str(n)] for an [int]. *)
Definition str_int (n : Z) : string :=
  if n <? 0 then "-" ++ str_nat (- n) else str_nat n.


(** The digits of [f"{n:,}"] for [n >= 0]: groups of three digits after
    the leading group. *)
Definition pad3 (n : Z) : string :=
  String (digit_char (n / 100))
    (String (digit_char (n / 10 mod 10))
       (String (digit_char (n mod 10)) EmptyString)).

Fixpoint group3 (fuel : nat) (n : Z) : string :=
  match fuel with
  | O => str_nat n
  | S fuel' =>
      if n <? 1000 then str_nat n
      else group3 fuel' (n / 1000) ++ "," ++ pad3 (n mod 1000)
  end.

(** [f"{n:,}"]. *)
Definition format_commas (n : Z) : string :=
  if n <? 0 then "-" ++ group3 (Z.to_nat (Z.log2 (- n))) (- n)
  else group3 (Z.to_nat (Z.log2 n)) n.

(** ** Floating point: [int / int] and the [.1f] format

    A finite binary64 number is kept as the dyadic rational
    [(-1)^f_neg * f_man * 2^f_exp]; the sign of a zero is kept too. *)

Record pyfloat : Type := mkfloat { f_neg : bool; f_man : Z; f_exp : Z }.

(** [num / den] rounded to the nearest integer, a tie to the even one
    ([0 <= num], [0 < den]). *)
Definition rne_div (num den : Z) : Z :=
  let q := num / den in
  let r := num mod den in
  if 2 * r <? den then q
  else if den <? 2 * r then q + 1
  else if Z.even q then q else q + 1.

(** [a / (b * 2^e)] as a fraction of integers. *)
Definition scaled_num (a e : Z) : Z := if 0 <=? e then a else a * 2 ^ (- e).
Definition scaled_den (b e : Z) : Z := if 0 <=? e then b * 2 ^ e else b.

(** The exponent [e] of the quotient of two positive integers:
    [2^52 <= a / (b * 2^e) < 2^53], and no less than the exponent of the
    subnormal numbers. *)
Definition quotient_exp (a b : Z) : Z :=
  let e0 := Z.log2 a - Z.log2 b - 53 in
  let e1 := if 2 ^ 53 <=? scaled_num a e0 / scaled_den b e0 then e0 + 1 else e0 in
  Z.max e1 (- 1074).

(** [a / b] on [int]: the binary64 number nearest to the quotient, a tie
    to the even significand; [ZeroDivisionError] for a zero divisor and
    [OverflowError] past the largest finite number. *)
Definition true_div (a b : Z) : result pyfloat :=
  if b =? 0 then Raise ZeroDivisionError
  else
    let neg := xorb (a <? 0) (b <? 0) in
    let a' := Z.abs a in
    let b' := Z.abs b in
    if a' =? 0 then Ok (mkfloat neg 0 0)
    else
      let e := quotient_exp a' b' in
      let m := rne_div (scaled_num a' e) (scaled_den b' e) in
      if (0 <=? e) && (2 ^ 1024 <=? m * 2 ^ e) then Raise OverflowError
      else Ok (mkfloat neg m e).

(** The number of tenths nearest to the magnitude of [x], a tie to the
    even one: the correctly rounded conversion of the format. *)
Definition tenths (x : pyfloat) : Z :=
  if 0 <=? f_exp x then 10 * f_man x * 2 ^ f_exp x
  else rne_div (10 * f_man x) (2 ^ (- f_exp x)).

Definition render_tenths (neg : bool) (t : Z) : string :=
  (if neg then "-" else "") ++ str_int (t / 10) ++ "." ++ str_int (t mod 10).

(** [f"{x:.1f}"]. *)
Definition format_1f (x : pyfloat) : string :=
  render_tenths (f_neg x) (tenths x).

Definition fmt_div (a b : Z) : result string :=
  let? x := true_div a b in Ok (format_1f x).

(** ** Dates *)

(** A [datetime]: the calendar fields as written, and the offset from UTC
    in microseconds of an aware one ([None] for a naive one). *)
Record datetime : Type := mkdatetime {
  year : Z;
  month : Z;
  day : Z;
  hour : Z;
  minute : Z;
  second : Z;
  microsecond : Z;
  utcoffset : option Z
}.

(** ** The application state *)

Record stat : Type := mkstat {
  title : string;
  value : string;
  description : string
}.

Record State : Type := mkState {
  username : string;
  is_loading : bool;
  error_message : option string;
  user_data : pyobj;
  stats_items : list stat;
  user_display_name : pyobj;
  posts_2024 : list pyobj;
  post_count : Z
}.

Definition set_is_loading (b : bool) (s : State) : State :=
  mkState (username s) b (error_message s) (user_data s) (stats_items s)
          (user_display_name s) (posts_2024 s) (post_count s).

Definition set_error_message (m : option string) (s : State) : State :=
  mkState (username s) (is_loading s) m (user_data s) (stats_items s)
          (user_display_name s) (posts_2024 s) (post_count s).

Definition set_user_data (v : pyobj) (s : State) : State :=
  mkState (username s) (is_loading s) (error_message s) v (stats_items s)
          (user_display_name s) (posts_2024 s) (post_count s).

Definition set_stats_items (l : list stat) (s : State) : State :=
  mkState (username s) (is_loading s) (error_message s) (user_data s) l
          (user_display_name s) (posts_2024 s) (post_count s).

Definition set_user_display_name (v : pyobj) (s : State) : State :=
  mkState (username s) (is_loading s) (error_message s) (user_data s)
          (stats_items s) v (posts_2024 s) (post_count s).

Definition set_posts_2024 (l : list pyobj) (s : State) : State :=
  mkState (username s) (is_loading s) (error_message s) (user_data s)
          (stats_items s) (user_display_name s) l (post_count s).

Definition set_post_count (n : Z) (s : State) : State :=
  mkState (username s) (is_loading s) (error_message s) (user_data s)
          (stats_items s) (user_display_name s) (posts_2024 s) n.

(** The class attributes: the state of a fresh session. *)
Definition init_State : State :=
  mkState "" false None (VDict []) [] (VStr "") [] 0.

(** A method body over a state [S]: it reads and writes the state, and an
    exception leaves the writes made before it in place. *)
Definition M (S A : Type) : Type := S -> S * result A.

Definition ret {S A : Type} (a : A) : M S A := fun s => (s, Ok a).

Definition bind {S A B : Type} (m : M S A) (k : A -> M S B) : M S B :=
  fun s =>
    match m s with
    | (s', Ok a) => k a s'
    | (s', Raise e) => (s', Raise e)
    end.

Definition lift {S A : Type} (r : result A) : M S A := fun s => (s, r).

(** [self.field] *)
Definition self {S A : Type} (field : S -> A) : M S A :=
  fun s => (s, Ok (field s)).

(** [self.field = v] *)
Definition assign {S : Type} (upd : S -> S) : M S unit :=
  fun s => (upd s, Ok tt).

Declare Scope method_scope.
Delimit Scope method_scope with method.
Notation "x <- m ;; k" := (bind m (fun x => k))
  (at level 61, m at next level, right associativity) : method_scope.
Notation "m ;; k" := (bind m (fun _ => k))
  (at level 61, right associativity) : method_scope.

(** ** A model of [datetime.fromisoformat]

    [iso_parse] reads [YYYY-MM-DD], alone or followed by one separator
    character, [HH:MM], an optional [:SS], an optional fraction of three or
    six digits and an optional offset [+HH:MM] or [-HH:MM], and checks the
    ranges of the fields as the constructor of [datetime] does.  Every
    other string is rejected here. *)

Definition digit (c : ascii) : option Z :=
  let n := nat_of_ascii c in
  if (Nat.leb 48 n && Nat.leb n 57)%bool then Some (Z.of_nat (n - 48)) else None.

(** [n] leading digits of [s], and what follows them. *)
Fixpoint digits (n : nat) (acc : Z) (s : string) : option (Z * string) :=
  match n with
  | O => Some (acc, s)
  | S n' =>
      match s with
      | String c s' =>
          match digit c with
          | Some d => digits n' (10 * acc + d) s'
          | None => None
          end
      | EmptyString => None
      end
  end.

Definition expect (c : ascii) (s : string) : option string :=
  match s with
  | String c' s' => if Ascii.eqb c c' then Some s' else None
  | EmptyString => None
  end.

Definition is_leap (y : Z) : bool :=
  (y mod 4 =? 0) && (negb (y mod 100 =? 0) || (y mod 400 =? 0)).

Definition days_in_month (y m : Z) : Z :=
  if m =? 2 then (if is_leap y then 29 else 28)
  else if (m =? 4) || (m =? 6) || (m =? 9) || (m =? 11) then 30
  else 31.

Definition obind {A B : Type} (o : option A) (k : A -> option B) : option B :=
  match o with Some a => k a | None => None end.

Notation "'let*' x ':=' o 'in' k" := (obind o (fun x => k))
  (at level 10, x pattern, o at level 100, k at level 200).

(** The offset, in microseconds: the end of the string for a naive time. *)
Definition parse_offset (s : string) : option (option Z) :=
  match s with
  | EmptyString => Some None
  | String c s' =>
      let* sign :=
        (if Ascii.eqb c "+" then Some 1
         else if Ascii.eqb c "-" then Some (-1) else None) in
      let* (h, s1) := digits 2 0 s' in
      let* s2 := expect ":" s1 in
      let* (m, s3) := digits 2 0 s2 in
      match s3 with
      | EmptyString =>
          if (h <=? 23) && (m <=? 59)
          then Some (Some (sign * (h * 3600 + m * 60) * 1000000))
          else None
      | _ => None
      end
  end.

(** The fraction of a second, in microseconds, and what follows it. *)
Definition parse_fraction (s : string) : option (Z * string) :=
  match s with
  | String "." s' =>
      let* (ms, s1) := digits 3 0 s' in
      match digits 3 0 s1 with
      | Some (us, s2) => Some (ms * 1000 + us, s2)
      | None => Some (ms * 1000, s1)
      end
  | _ => Some (0, s)
  end.

(** The seconds and their fraction, and what follows them. *)
Definition parse_seconds (s : string) : option (Z * Z * string) :=
  match s with
  | String ":" s' =>
      let* (sec, s1) := digits 2 0 s' in
      let* (us, s2) := parse_fraction s1 in
      Some (sec, us, s2)
  | _ => Some (0, 0, s)
  end.

Definition parse_datetime (s : string) : option datetime :=
  let* (y, s1) := digits 4 0 s in
  let* s2 := expect "-" s1 in
  let* (mo, s3) := digits 2 0 s2 in
  let* s4 := expect "-" s3 in
  let* (d, s5) := digits 2 0 s4 in
  if (1 <=? y) && (1 <=? mo) && (mo <=? 12) && (1 <=? d) && (d <=? days_in_month y mo)
  then
    match s5 with
    | EmptyString => Some (mkdatetime y mo d 0 0 0 0 None)
    | String _ s6 =>
        let* (h, s7) := digits 2 0 s6 in
        let* s8 := expect ":" s7 in
        let* (mi, s9) := digits 2 0 s8 in
        let* (sec_us, s10) := parse_seconds s9 in
        let* off := parse_offset s10 in
        if (h <=? 23) && (mi <=? 59) && (fst sec_us <=? 59)
        then Some (mkdatetime y mo d h mi (fst sec_us) (snd sec_us) off)
        else None
    end
  else None.

Definition iso_parse (s : string) : result datetime :=
  match parse_datetime s with
  | Some dt => Ok dt
  | None => Raise ValueError
  end.

(** ** The network

    One call of [client.post] sends a request and either obtains a response
    or raises.  A session keeps the requests sent so far; the reply to the
    [n]-th call is [network n]. *)

Record request : Type := mkrequest {
  url : string;
  query : string;
  variables_username : string;
  authorization : string;
  timeout : Z
}.

(** A response: its status code, what [response.json()] gives, and the
    text of the error [raise_for_status] builds for it. *)
Record response : Type := mkresponse {
  status_code : Z;
  json : result pyobj;
  status_text : string
}.

Inductive reply : Type :=
| Responded : response -> reply
| Failed : exn -> reply.

Record Session : Type := mkSession {
  app : State;
  sent : list request;
  network : nat -> reply
}.

Definition on_app (f : State -> State) (w : Session) : Session :=
  mkSession (f (app w)) (sent w) (network w).

(** [await client.post(url, json=..., headers=..., timeout=...)] *)
Definition client_post (r : request) : M Session response :=
  fun w =>
    let w' := mkSession (app w) (sent w ++ [r]) (network w) in
    match network w (List.length (sent w)) with
    | Responded resp => (w', Ok resp)
    | Failed e => (w', Raise e)
    end.

(** [response.raise_for_status()]: every status outside 200..299 raises. *)
Definition raise_for_status (r : response) : result unit :=
  if (200 <=? status_code r) && (status_code r <=? 299) then Ok tt
  else Raise (HTTPStatusError (status_code r) (status_text r)).

(** [v[0]] *)
Definition py_first (v : pyobj) : result pyobj :=
  match v with
  | VList (x :: _) => Ok x
  | VList [] => Raise IndexError
  | VStr (String c _) => Ok (VStr (String c EmptyString))
  | VStr EmptyString => Raise IndexError
  | VDict _ => Raise KeyError
  | _ => Raise TypeError
  end.

(** [v.lower()]: only a string has the method. *)
Definition py_lower (v : pyobj) : result string :=
  match v with
  | VStr s => Ok (lower s)
  | _ => Raise AttributeError
  end.

Definition try_except {S A : Type} (body : M S A) (handler : exn -> M S A) : M S A :=
  fun s =>
    match body s with
    | (s', Ok a) => (s', Ok a)
    | (s', Raise e) => handler e s'
    end.

Definition try_finally {S A : Type} (body : M S A) (final : M S unit) : M S A :=
  fun s =>
    match body s with
    | (s', r) =>
        match final s' with
        | (s'', Ok _) => (s'', r)
        | (s'', Raise e) => (s'', Raise e)
        end
    end.

Definition HASHNODE_API_URL : string := "https://gql.hashnode.com".

Definition USER_STATS_QUERY : string := "
query($username: String!) {
    user(username: $username) {
        username
        followersCount
        badges {
            name
        }
        posts(page: 1, pageSize: 20) {
            nodes {
                title
                publishedAt
                views
                reactionCount
                replyCount    
            }
        }
    }
}
".

(** ** The data model of the specification

    A [UserRecord] as the specification types it, every field optional; its
    JSON form is the dict the API returns, with an absent field left out. *)

(** A decoded record whose list of posts is [nodes], and whose other
    fields are [fields]. *)
Definition with_nodes (fields : list (string * pyobj)) (nodes : list pyobj) : pyobj :=
  VDict (("posts", VDict [("nodes", VList nodes)]) :: fields).

Module UserRecord.

Record Post : Type := mkPost {
  title : option string;
  publishedAt : option string;
  views : option Z;
  reactionCount : option Z;
  replyCount : option Z
}.

Record t : Type := mk {
  username : option string;
  followersCount : option Z;
  badges : option (list string);
  posts : list Post
}.

Definition field (key : string) (v : option pyobj) : list (string * pyobj) :=
  match v with
  | Some x => [(key, x)]
  | None => []
  end.

Definition encode_post (p : Post) : pyobj :=
  VDict (field "title" (option_map VStr (title p))
         ++ field "publishedAt" (option_map VStr (publishedAt p))
         ++ field "views" (option_map VInt (views p))
         ++ field "reactionCount" (option_map VInt (reactionCount p))
         ++ field "replyCount" (option_map VInt (replyCount p))).

Definition encode_badge (name : string) : pyobj := VDict [("name", VStr name)].

Definition encode_fields (r : t) : list (string * pyobj) :=
  field "username" (option_map VStr (username r))
  ++ field "followersCount" (option_map VInt (followersCount r))
  ++ field "badges"
       (option_map (fun l => VList (map encode_badge l)) (badges r)).

Definition encode (r : t) : pyobj :=
  with_nodes (encode_fields r) (map encode_post (posts r)).

Definition or_zero (v : option Z) : Z :=
  match v with Some z => z | None => 0 end.


(** The sum of a field over posts, an absent field counting 0. *)
Definition total (f : Post -> option Z) (l : list Post) : Z :=
  fold_right (fun p acc => or_zero (f p) + acc) 0 l.


End UserRecord.

(** The time of day of a [datetime], in microseconds. *)
Definition time_of_day (dt : datetime) : Z :=
  ((hour dt * 60 + minute dt) * 60 + second dt) * 1000000 + microsecond dt.

(** The calendar year, in UTC, of the instant a [datetime] denotes: the
    offset moves the time of day by less than a day, so the year changes
    only across the night of the 31st of December. *)
Definition utc_year (dt : datetime) : Z :=
  let offset := match utcoffset dt with Some o => o | None => 0 end in
  let utc_time := time_of_day dt - offset in
  if utc_time <? 0 then
    (if (month dt =? 1) && (day dt =? 1) then year dt - 1 else year dt)
  else if 86400000000 <=? utc_time then
    (if (month dt =? 12) && (day dt =? 31) then year dt + 1 else year dt)
  else year dt.

(** The value of the metric titled [t], if the state shows one. *)
Definition metric (t : string) (s : State) : option string :=
  option_map value (find (fun m => String.eqb (title m) t) (stats_items s)).

(** ** The record as Python holds it: a graph of objects

    In Python the record is not a tree of values: a dict and a list are
    mutable objects, held by reference and possibly shared.  The store is
    the list of the objects allocated so far; a reference is the index of
    an object in it, and an allocation appends. *)

Inductive hval : Type :=
| HNone : hval
| HBool : bool -> hval
| HInt : Z -> hval
| HStr : string -> hval
| HRef : nat -> hval.

Inductive hobj : Type :=
| HList : list hval -> hobj
| HDict : list (string * hval) -> hobj.

Definition ref_truthy (h : list hobj) (v : hval) : bool :=
  match v with
  | HNone => false
  | HBool b => b
  | HInt z => negb (z =? 0)
  | HStr s => negb (String.eqb s "")
  | HRef l =>
      match nth_error h l with
      | Some (HList (_ :: _)) => true
      | Some (HDict (_ :: _)) => true
      | _ => false
      end
  end.

Definition ref_get (h : list hobj) (v : hval) (key : string) (default : hval)
  : result hval :=
  match v with
  | HRef l =>
      match nth_error h l with
      | Some (HDict d) =>
          Ok (match lookup key d with Some x => x | None => default end)
      | _ => Raise AttributeError
      end
  | _ => Raise AttributeError
  end.

Definition ref_getitem (h : list hobj) (v : hval) (key : string) : result hval :=
  match v with
  | HRef l =>
      match nth_error h l with
      | Some (HDict d) =>
          match lookup key d with Some x => Ok x | None => Raise KeyError end
      | _ => Raise TypeError
      end
  | _ => Raise TypeError
  end.

Fixpoint ref_chars (s : string) : list hval :=
  match s with
  | EmptyString => []
  | String c s' => HStr (String c EmptyString) :: ref_chars s'
  end.

Fixpoint ref_keys (d : list (string * hval)) (seen : list string) : list hval :=
  match d with
  | [] => []
  | (k, _) :: d' =>
      if existsb (String.eqb k) seen then ref_keys d' seen
      else HStr k :: ref_keys d' (k :: seen)
  end.

Definition ref_iter (h : list hobj) (v : hval) : result (list hval) :=
  match v with
  | HRef l =>
      match nth_error h l with
      | Some (HList items) => Ok items
      | Some (HDict d) => Ok (ref_keys d [])
      | None => Raise TypeError
      end
  | HStr s => Ok (ref_chars s)
  | _ => Raise TypeError
  end.

Definition ref_len (h : list hobj) (v : hval) : result Z :=
  match v with
  | HRef l =>
      match nth_error h l with
      | Some (HList items) => Ok (Z.of_nat (List.length items))
      | Some (HDict d) => Ok (Z.of_nat (List.length (ref_keys d [])))
      | None => Raise TypeError
      end
  | HStr s => Ok (Z.of_nat (String.length s))
  | _ => Raise TypeError
  end.

Definition ref_add (acc : Z) (v : hval) : result Z :=
  match v with
  | HInt z => Ok (acc + z)
  | HBool b => Ok (acc + (if b then 1 else 0))
  | _ => Raise TypeError
  end.

Definition ref_replace_Z (v : hval) : result string :=
  match v with
  | HStr s => Ok (str_replace "Z"%char "+00:00" s)
  | _ => Raise AttributeError
  end.

(** The attributes of [self] that [process_stats] writes, with references
    where Python keeps references. *)
Record RState : Type := mkRState {
  r_user_data : hval;
  r_stats_items : list stat;
  r_user_display_name : hval;
  r_posts_2024 : hval;
  r_post_count : Z
}.

Record World : Type := mkWorld {
  heap : list hobj;
  me : RState
}.

Definition on_me (f : RState -> RState) (w : World) : World :=
  mkWorld (heap w) (f (me w)).

Definition put_user_data (v : hval) (s : RState) : RState :=
  mkRState v (r_stats_items s) (r_user_display_name s) (r_posts_2024 s)
           (r_post_count s).

Definition put_stats_items (l : list stat) (s : RState) : RState :=
  mkRState (r_user_data s) l (r_user_display_name s) (r_posts_2024 s)
           (r_post_count s).

Definition put_user_display_name (v : hval) (s : RState) : RState :=
  mkRState (r_user_data s) (r_stats_items s) v (r_posts_2024 s) (r_post_count s).

Definition put_posts_2024 (v : hval) (s : RState) : RState :=
  mkRState (r_user_data s) (r_stats_items s) (r_user_display_name s) v
           (r_post_count s).

Definition put_post_count (n : Z) (s : RState) : RState :=
  mkRState (r_user_data s) (r_stats_items s) (r_user_display_name s)
           (r_posts_2024 s) n.

(** A new object: a display [{}], [[]] or [[... for ...]]. *)
Definition alloc (o : hobj) : M World hval :=
  fun w => (mkWorld (heap w ++ [o]) (me w), Ok (HRef (List.length (heap w)))).

(** A step that only reads the store. *)
Definition reading {A : Type} (f : list hobj -> result A) : M World A :=
  fun w => (w, f (heap w)).

(** The tree of values a value of the store stands for. *)
Fixpoint denotes (h : list hobj) (v : hval) (j : pyobj) {struct j} : Prop :=
  match j with
  | VNone => v = HNone
  | VBool b => v = HBool b
  | VInt z => v = HInt z
  | VStr s => v = HStr s
  | VList js =>
      exists l items,
        v = HRef l /\ nth_error h l = Some (HList items) /\
        (fix all (items : list hval) (js : list pyobj) {struct js} : Prop :=
           match js, items with
           | [], [] => True
           | j' :: js', i :: items' => denotes h i j' /\ all items' js'
           | _, _ => False
           end) items js
  | VDict d =>
      exists l entries,
        v = HRef l /\ nth_error h l = Some (HDict entries) /\
        (fix all (entries : list (string * hval)) (d : list (string * pyobj))
             {struct d} : Prop :=
           match d, entries with
           | [], [] => True
           | (k', j') :: d', (k, i) :: entries' =>
               k = k' /\ denotes h i j' /\ all entries' d'
           | _, _ => False
           end) entries d
  end.

(** The items of a list of the store stand for the items of a list of
    values, one by one; so do the entries of a dict, under the same keys. *)
Definition entry_denotes (h : list hobj) (e : string * hval) (kv : string * pyobj)
  : Prop :=
  fst e = fst kv /\ denotes h (snd e) (snd kv).

(** Two results that agree: related values, or the same exception. *)
Definition sim {A B : Type} (R : A -> B -> Prop) (ra : result A) (rb : result B)
  : Prop :=
  match ra, rb with
  | Ok a, Ok b => R a b
  | Raise e, Raise e' => e = e'
  | _, _ => False
  end.

(** ** [State.share_stats] *)

(** [urllib.parse.quote(s)] with its default [safe="/"], on the bytes of
    the text: letters, digits and [_.-~] are never quoted, [/] is safe,
    and every other byte becomes [%XX] with upper-case hexadecimal
    digits. *)
Definition unreserved (c : ascii) : bool :=
  let n := nat_of_ascii c in
  ((Nat.leb 65 n && Nat.leb n 90) || (Nat.leb 97 n && Nat.leb n 122)
   || (Nat.leb 48 n && Nat.leb n 57)
   || Nat.eqb n 95 || Nat.eqb n 46 || Nat.eqb n 45 || Nat.eqb n 126)%bool.

Definition never_quoted (c : ascii) : bool :=
  unreserved c || Ascii.eqb c "/".

Definition hex_digit (n : nat) : ascii :=
  if Nat.ltb n 10 then ascii_of_nat (48 + n)%nat else ascii_of_nat (55 + n)%nat.

Definition percent (c : ascii) : string :=
  let n := nat_of_ascii c in
  String "%" (String (hex_digit (n / 16)%nat)
                (String (hex_digit (n mod 16)%nat) EmptyString)).

Fixpoint quote (s : string) : string :=
  match s with
  | EmptyString => EmptyString
  | String c s' =>
      if never_quoted c then String c (quote s') else percent c ++ quote s'
  end.

(** The percent-decoding a receiver of the URL applies (RFC 3986, what
    [urllib.parse.unquote_to_bytes] computes): [%XX] with two hexadecimal
    digits of either case is one byte, and any other character is
    itself. *)
Definition hex_value (c : ascii) : option nat :=
  let n := nat_of_ascii c in
  if (Nat.leb 48 n && Nat.leb n 57)%bool then Some (n - 48)%nat
  else if (Nat.leb 65 n && Nat.leb n 70)%bool then Some (n - 55)%nat
  else if (Nat.leb 97 n && Nat.leb n 102)%bool then Some (n - 87)%nat
  else None.

Fixpoint percent_decode (s : string) : string :=
  match s with
  | EmptyString => EmptyString
  | String c s' =>
      if Ascii.eqb c "%" then
        match s' with
        | String h (String l rest) =>
            match hex_value h, hex_value l with
            | Some a, Some b =>
                String (ascii_of_nat (16 * a + b)%nat) (percent_decode rest)
            | _, _ => String c (percent_decode s')
            end
        | _ => String c (percent_decode s')
        end
      else String c (percent_decode s')
  end.

(** The characters of a quoted text: those never quoted, and the percent
    sign. *)
Definition url_char (c : ascii) : bool :=
  never_quoted c || Ascii.eqb c "%".

Fixpoint all_chars (p : ascii -> bool) (s : string) : bool :=
  match s with
  | EmptyString => true
  | String c s' => p c && all_chars p s'
  end.

(** [sep.join(l)] *)
Fixpoint join (sep : string) (l : list string) : string :=
  match l with
  | [] => EmptyString
  | x :: rest =>
      match rest with
      | [] => x
      | _ => x ++ sep ++ join sep rest
      end
  end.

Definition shared_titles : list string :=
  ["Total Articles"; "Total Views"; "Total Reactions"].

(** The loop over [self.stats_items]: [stats_summary.append(...)] for
    every metric whose title is one of the three. *)
Definition stats_summary (items : list stat) : list string :=
  fold_left
    (fun summary stat =>
       if existsb (String.eqb (title stat)) shared_titles
       then List.app summary [title stat ++ ": " ++ value stat]
       else summary)
    items [].

(** The line [share_stats] writes for a metric. *)
Definition summary_line (m : stat) : string := title m ++ ": " ++ value m.

Definition is_shared (m : stat) : bool :=
  existsb (String.eqb (title m)) shared_titles.

Definition newline : string := String (ascii_of_nat 10) EmptyString.

Definition tweet_text (items : list stat) : string :=
  "Check out my @hashnode Wrapped 2024!" ++ newline ++ newline
  ++ join " | " (stats_summary items) ++ newline ++ newline
  ++ "Generate yours at https://hashnode_wrapped_2-gold-panda.reflex.run by @sophiairoegbu_"
  ++ newline ++ newline ++ "#HashnodeWrapped".

Definition share_prefix : string := "https://twitter.com/intent/tweet?text=".

Definition share_url (items : list stat) : string :=
  share_prefix ++ quote (tweet_text items).

(** The method returns the URL it redirects to. *)
Definition share_stats : M State string :=
  (items <- self stats_items ;;
   ret (share_url items))%method.

(** ** Sample records and sessions *)

(** A stand-in for [repr]: no run below formats a container. *)
Definition no_repr (v : pyobj) : string := "".

(** A stand-in for the text of an exception of the interpreter. *)
Definition no_text (e : exn) : string := "".

Definition post_2024 : UserRecord.Post :=
  UserRecord.mkPost None (Some "2024-03-01T00:00:00Z") (Some 100) (Some 10) None.

Definition post_2023 : UserRecord.Post :=
  UserRecord.mkPost None (Some "2023-12-31T23:59:59Z") (Some 50) (Some 5) None.

(** The record of the scenario of the specification. *)
Definition scenario : UserRecord.t :=
  UserRecord.mk None (Some 10) (Some ["a"]) [post_2024; post_2023].

Definition no_posts : UserRecord.t :=
  UserRecord.mk (Some "alice") None None [].

(** Three posts of 2024 with 12345 reactions in all. *)
Definition three_posts : UserRecord.t :=
  UserRecord.mk (Some "alice") (Some 7) (Some [])
    [ UserRecord.mkPost None (Some "2024-01-05T10:00:00Z") (Some 1234567) (Some 12000) None;
      UserRecord.mkPost None (Some "2024-02-05T10:00:00Z") None (Some 345) None;
      UserRecord.mkPost None (Some "2024-03-05T10:00:00Z") (Some 0) None None ].

(** Twenty posts of 2024 with 3 reactions in all. *)
Definition twenty_posts : UserRecord.t :=
  UserRecord.mk (Some "alice") None None
    (UserRecord.mkPost None (Some "2024-01-05T10:00:00Z") None (Some 3) None
     :: repeat (UserRecord.mkPost None (Some "2024-01-06T10:00:00Z") None None None) 19).

Definition post_unreadable : UserRecord.Post :=
  UserRecord.mkPost None (Some "not-a-date") (Some 1) (Some 1) None.

Definition post_untimed : UserRecord.Post :=
  UserRecord.mkPost (Some "draft") None (Some 1) (Some 1) None.

Definition unreadable_then_good : UserRecord.t :=
  UserRecord.mk None (Some 10) (Some ["a"]) [post_unreadable; post_2024].

Definition untimed_then_good : UserRecord.t :=
  UserRecord.mk None (Some 10) (Some ["a"]) [post_untimed; post_2024].

Definition good_alone : UserRecord.t :=
  UserRecord.mk None (Some 10) (Some ["a"]) [post_2024].

(** Half past midnight on the first of January 2024 at +05:00 is an
    instant of 2023 in UTC; half past eleven in the evening of the 31st of
    December 2023 at -05:00 is an instant of 2024 in UTC. *)
Definition post_east : UserRecord.Post :=
  UserRecord.mkPost None (Some "2024-01-01T00:30:00+05:00") (Some 1) (Some 1) None.

Definition post_west : UserRecord.Post :=
  UserRecord.mkPost None (Some "2023-12-31T23:30:00-05:00") (Some 1) (Some 1) None.

Definition east_only : UserRecord.t := UserRecord.mk None None None [post_east].
Definition west_only : UserRecord.t := UserRecord.mk None None None [post_west].

(** A store that holds a record with one post of 2024: the post, the list
    of posts, the dict of the posts and the record, in this order. *)
Definition sample_heap : list hobj :=
  [ HDict [("publishedAt", HStr "2024-03-01T00:00:00Z"); ("views", HInt 100);
           ("reactionCount", HInt 10)];
    HList [HRef 0];
    HDict [("nodes", HRef 1)];
    HDict [("followersCount", HInt 10); ("posts", HRef 2)] ].

Definition sample_world : World :=
  mkWorld sample_heap (mkRState HNone [] (HStr "") HNone 0).

Definition no_ref_repr (h : list hobj) (v : hval) : string := "".

(** A post of 2024 whose views are null, and a post whose publishedAt
    is a number. *)
Definition post_null_views : pyobj :=
  VDict [("publishedAt", VStr "2024-03-01T00:00:00Z"); ("views", VNone);
         ("reactionCount", VInt 10)].

Definition post_numeric_time : pyobj :=
  VDict [("publishedAt", VInt 1709251200); ("views", VInt 1)].

(** A session of user "alice" whose network gives [r] to every call. *)
Definition session_of (r : reply) : Session :=
  mkSession (mkState "alice" false None (VDict []) [] (VStr "") [] 0) [] (fun _ => r).

(** A session in which no username has been typed. *)
Definition nameless_session : Session :=
  mkSession init_State [] (fun _ => Failed (RequestError "")).

Definition body_unauthenticated : pyobj :=
  VDict [("errors", VList [VDict [("message", VStr "User not authenticated")]])].

Definition body_authentication : pyobj :=
  VDict [("errors", VList [VDict [("message", VStr "AUTHENTICATION required")]])].

Definition body_other_error : pyobj :=
  VDict [("errors", VList [VDict [("message", VStr "Rate limit exceeded")]])].

Definition body_no_user : pyobj :=
  VDict [("data", VDict [("user", VNone)])].

Definition body_empty_errors : pyobj := VDict [("errors", VList [])].

(** A body whose user is a list. *)
Definition body_list_user : pyobj :=
  VDict [("data", VDict [("user", VList [VInt 1])])].

Definition body_scenario : pyobj :=
  VDict [("data", VDict [("user", UserRecord.encode scenario)])].

(** ** [State.process_stats] *)

Section App.

(** [datetime.fromisoformat]; it raises [ValueError] on a string it
    cannot read. *)
Variable fromisoformat : string -> result datetime.

(** [repr] of a list or a dict. *)
Variable repr : pyobj -> string.

(** [str(v)]. *)
Definition py_str (v : pyobj) : string :=
  match v with
  | VNone => "None"
  | VBool true => "True"
  | VBool false => "False"
  | VInt z => str_int z
  | VStr s => s
  | _ => repr v
  end.

(** The condition of the comprehension:
    [post.get("publishedAt") and
     datetime.fromisoformat(post["publishedAt"].replace("Z", "+00:00")).year == 2024]. *)
Definition in_2024 (post : pyobj) : result bool :=
  let? published := py_get post "publishedAt" VNone in
  if truthy published then
    let? raw := py_getitem post "publishedAt" in
    let? text := py_replace_Z raw in
    let? dt := fromisoformat text in
    Ok (year dt =? 2024)
  else Ok false.

(** [[post for post in posts if cond(post)]]: the first exception of
    the condition ends the comprehension. *)
Fixpoint comprehension {V : Type} (cond : V -> result bool) (posts : list V)
  : result (list V) :=
  match posts with
  | [] => Ok []
  | post :: rest =>
      let? keep := cond post in
      let? kept := comprehension cond rest in
      Ok (if keep then post :: kept else kept)
  end.

(** [sum(post.get(key, 0) for post in posts)]. *)
Definition sum_field (key : string) (posts : list pyobj) : result Z :=
  fold_left
    (fun acc post =>
       let? a := acc in
       let? v := py_get post key (VInt 0) in
       py_add a v)
    posts (Ok 0).

(** The body of the [try]. *)
Definition process_stats_try (data : pyobj) : M State unit :=
  (assign (set_user_data data) ;;
   posts <- lift (py_get data "posts" (VDict [])) ;;
   all_posts <- lift (py_get posts "nodes" (VList [])) ;;
   items <- lift (py_iter all_posts) ;;
   kept <- lift (comprehension in_2024 items) ;;
   assign (set_posts_2024 kept) ;;
   kept' <- self posts_2024 ;;
   assign (set_post_count (Z.of_nat (List.length kept'))) ;;
   for_views <- self posts_2024 ;;
   total_views <- lift (sum_field "views" for_views) ;;
   for_reactions <- self posts_2024 ;;
   total_reactions <- lift (sum_field "reactionCount" for_reactions) ;;
   total_followers <- lift (py_get data "followersCount" (VInt 0)) ;;
   badges <- lift (py_get data "badges" VNone) ;;
   total_badges <-
     (if truthy badges then
        (listed <- lift (py_get data "badges" (VList [])) ;;
         lift (py_len listed))
      else ret 0) ;;
   name <- lift (py_get data "username" (VStr "")) ;;
   assign (set_user_display_name name) ;;
   count <- self post_count ;;
   divisor <- self post_count ;;
   average <-
     (if 0 <? divisor then
        (count' <- self post_count ;;
         lift (fmt_div total_reactions count'))
      else ret "0") ;;
   assign (set_stats_items
     [ mkstat "Total Articles" (str_int count) "Articles published in 2024";
       mkstat "Total Views" (format_commas total_views) "Content views in 2024";
       mkstat "Total Reactions" (str_int total_reactions) "Reactions in 2024";
       mkstat "Followers" (py_str total_followers) "Total followers";
       mkstat "Badges Earned" (str_int total_badges) "Total badges collected";
       mkstat "Avg. Reactions" average "Average reactions per post" ]))%method.

(** The handler of [except Exception]. *)
Definition process_stats_except : M State unit :=
  (assign (set_stats_items []) ;;
   assign (set_post_count 0))%method.

Definition process_stats (data : pyobj) (s : State) : State :=
  match process_stats_try data s with
  | (s', Ok _) => s'
  | (s', Raise _) => fst (process_stats_except s')
  end.

(** ** [State.handle_submit] *)

(** The module constant read from the environment. *)
Variable ACCESS_TOKEN : option string.

(** [str(e)] for an exception of the interpreter. *)
Variable exn_text : exn -> string.

Definition str_exn (e : exn) : string :=
  match e with
  | HTTPStatusError _ m => m
  | RequestError m => m
  | _ => exn_text e
  end.

Definition no_token : bool :=
  match ACCESS_TOKEN with
  | None => true
  | Some t => String.eqb t ""
  end.

Definition token_text : string :=
  match ACCESS_TOKEN with Some t => t | None => "" end.

Definition set_error (m : string) : M Session unit :=
  assign (on_app (set_error_message (Some m))).

(** The body of the [try], from the decoded document on: the check for
    GraphQL errors, the check for the user, the aggregation. *)
Definition handle_document (data : pyobj) : M Session (option string) :=
  (has_errors <- lift (py_contains "errors" data) ;;
   if has_errors then
     (errors <- lift (py_getitem data "errors") ;;
      first <- lift (py_first errors) ;;
      msg <- lift (py_get first "message" (VStr "Unknown GraphQL error")) ;;
      low <- lift (py_lower msg) ;;
      unauthorized <-
        (if substringb "unauthorized" low then ret true
         else (low' <- lift (py_lower msg) ;;
               ret (substringb "authentication" low'))) ;;
      if unauthorized then
        (set_error "Invalid access token. Please check your configuration." ;;
         ret None)
      else
        (set_error ("API Error: " ++ py_str msg) ;;
         ret None))
   else
     (payload <- lift (py_get data "data" (VDict [])) ;;
      user <- lift (py_get payload "user" VNone) ;;
      if negb (truthy user) then
        (set_error "User not found" ;;
         ret None)
      else
        (payload' <- lift (py_getitem data "data") ;;
         user' <- lift (py_getitem payload' "user") ;;
         assign (on_app (process_stats user')) ;;
         ret (Some "/stats"))))%method.

(** The body of the [try]. *)
Definition handle_submit_try : M Session (option string) :=
  (name <- self (fun w => username (app w)) ;;
   resp <- client_post
     (mkrequest HASHNODE_API_URL USER_STATS_QUERY name token_text 30) ;;
   lift (raise_for_status resp) ;;
   data <- lift (json resp) ;;
   handle_document data)%method.

(** The [except] clauses, in their order. *)
Definition handle_submit_except (e : exn) : M Session (option string) :=
  (match e with
   | HTTPStatusError status _ =>
       if status =? 401 then
         set_error "Invalid access token. Please check your configuration."
       else if status =? 403 then
         set_error "Access forbidden. Please check your permissions."
       else set_error ("HTTP Error: " ++ str_exn e)
   | RequestError _ => set_error ("Network Error: " ++ str_exn e)
   | _ => set_error ("An unexpected error occurred: " ++ str_exn e)
   end ;;
   ret None)%method.

(** The method returns the path it redirects to, if any. *)
Definition handle_submit : M Session (option string) :=
  (name <- self (fun w => username (app w)) ;;
   if String.eqb name "" then
     (set_error "Please enter a username" ;;
      ret None)
   else if no_token then
     (set_error "Access token not configured. Please check your .env file contains ACCESS_TOKEN" ;;
      ret None)
   else
     (assign (on_app (set_is_loading true)) ;;
      assign (on_app (set_error_message None)) ;;
      try_finally
        (try_except handle_submit_try handle_submit_except)
        (assign (on_app (set_is_loading false)))))%method.

(** ** [State.process_stats] on the graph of objects *)

(** [repr] of a container of the store. *)
Variable ref_repr : list hobj -> hval -> string.

Definition ref_str (h : list hobj) (v : hval) : string :=
  match v with
  | HNone => "None"
  | HBool true => "True"
  | HBool false => "False"
  | HInt z => str_int z
  | HStr s => s
  | HRef _ => ref_repr h v
  end.

Definition ref_in_2024 (h : list hobj) (post : hval) : result bool :=
  let? published := ref_get h post "publishedAt" HNone in
  if ref_truthy h published then
    let? raw := ref_getitem h post "publishedAt" in
    let? text := ref_replace_Z raw in
    let? dt := fromisoformat text in
    Ok (year dt =? 2024)
  else Ok false.

Definition ref_sum_field (h : list hobj) (key : string) (posts : list hval)
  : result Z :=
  fold_left
    (fun acc post =>
       let? a := acc in
       let? v := ref_get h post key (HInt 0) in
       ref_add a v)
    posts (Ok 0).

Definition ref_process_stats_try (data : hval) : M World unit :=
  (assign (on_me (put_user_data data)) ;;
   no_posts <- alloc (HDict []) ;;
   posts <- reading (fun h => ref_get h data "posts" no_posts) ;;
   no_nodes <- alloc (HList []) ;;
   all_posts <- reading (fun h => ref_get h posts "nodes" no_nodes) ;;
   items <- reading (fun h => ref_iter h all_posts) ;;
   kept <- reading (fun h => comprehension (ref_in_2024 h) items) ;;
   kept_list <- alloc (HList kept) ;;
   assign (on_me (put_posts_2024 kept_list)) ;;
   kept' <- self (fun w => r_posts_2024 (me w)) ;;
   n <- reading (fun h => ref_len h kept') ;;
   assign (on_me (put_post_count n)) ;;
   for_views <- self (fun w => r_posts_2024 (me w)) ;;
   views_of <- reading (fun h => ref_iter h for_views) ;;
   total_views <- reading (fun h => ref_sum_field h "views" views_of) ;;
   for_reactions <- self (fun w => r_posts_2024 (me w)) ;;
   reactions_of <- reading (fun h => ref_iter h for_reactions) ;;
   total_reactions <- reading (fun h => ref_sum_field h "reactionCount" reactions_of) ;;
   total_followers <- reading (fun h => ref_get h data "followersCount" (HInt 0)) ;;
   badges <- reading (fun h => ref_get h data "badges" HNone) ;;
   has_badges <- reading (fun h => Ok (ref_truthy h badges)) ;;
   total_badges <-
     (if has_badges then
        (no_badges <- alloc (HList []) ;;
         listed <- reading (fun h => ref_get h data "badges" no_badges) ;;
         reading (fun h => ref_len h listed))
      else ret 0) ;;
   name <- reading (fun h => ref_get h data "username" (HStr "")) ;;
   assign (on_me (put_user_display_name name)) ;;
   count <- self (fun w => r_post_count (me w)) ;;
   divisor <- self (fun w => r_post_count (me w)) ;;
   average <-
     (if 0 <? divisor then
        (count' <- self (fun w => r_post_count (me w)) ;;
         lift (fmt_div total_reactions count'))
      else ret "0") ;;
   followers_text <- reading (fun h => Ok (ref_str h total_followers)) ;;
   assign (on_me (put_stats_items
     [ mkstat "Total Articles" (str_int count) "Articles published in 2024";
       mkstat "Total Views" (format_commas total_views) "Content views in 2024";
       mkstat "Total Reactions" (str_int total_reactions) "Reactions in 2024";
       mkstat "Followers" followers_text "Total followers";
       mkstat "Badges Earned" (str_int total_badges) "Total badges collected";
       mkstat "Avg. Reactions" average "Average reactions per post" ])))%method.

Definition ref_process_stats_except : M World unit :=
  (assign (on_me (put_stats_items [])) ;;
   assign (on_me (put_post_count 0)))%method.

Definition ref_process_stats (data : hval) (w : World) : World :=
  match ref_process_stats_try data w with
  | (w', Ok _) => w'
  | (w', Raise _) => fst (ref_process_stats_except w')
  end.

(** A step that leaves [self.user_data] alone. *)
Definition keeping {A : Type} (m : M World A) : Prop :=
  forall w, r_user_data (me (fst (m w))) = r_user_data (me w).

(** A step under which the store only grows. *)
Definition growing {A : Type} (m : M World A) : Prop :=
  forall w, exists more, heap (fst (m w)) = (heap w ++ more)%list.

(** ** What a run of the aggregation computes *)

(** [len(data.get("badges", [])) if data.get("badges") else 0] *)
Definition badge_total (data : pyobj) : result Z :=
  let? badges := py_get data "badges" VNone in
  if truthy badges then
    let? listed := py_get data "badges" (VList []) in py_len listed
  else Ok 0.

(** The text of the last metric. *)
Definition average_text (total count : Z) : result string :=
  if 0 <? count then fmt_div total count else Ok "0".

(** The posts the loop of the comprehension draws. *)
Definition all_posts (data : pyobj) : result (list pyobj) :=
  let? posts := py_get data "posts" (VDict []) in
  let? nodes := py_get posts "nodes" (VList []) in
  py_iter nodes.

Definition six_stats (count views reactions : Z) (followers : pyobj)
                     (badges : Z) (average : string) : list stat :=
  [ mkstat "Total Articles" (str_int count) "Articles published in 2024";
    mkstat "Total Views" (format_commas views) "Content views in 2024";
    mkstat "Total Reactions" (str_int reactions) "Reactions in 2024";
    mkstat "Followers" (py_str followers) "Total followers";
    mkstat "Badges Earned" (str_int badges) "Total badges collected";
    mkstat "Avg. Reactions" average "Average reactions per post" ].

(** The stages of the [try], without the state. *)
Record summary : Type := mksummary {
  kept : list pyobj;
  total_views : Z;
  total_reactions : Z;
  total_followers : pyobj;
  total_badges : Z;
  display_name : pyobj;
  average : string
}.

Definition analyse (data : pyobj) : result summary :=
  let? items := all_posts data in
  let? kept := comprehension in_2024 items in
  let? views := sum_field "views" kept in
  let? reactions := sum_field "reactionCount" kept in
  let? followers := py_get data "followersCount" (VInt 0) in
  let? badges := badge_total data in
  let? name := py_get data "username" (VStr "") in
  let? average := average_text reactions (Z.of_nat (List.length kept)) in
  Ok (mksummary kept views reactions followers badges name average).

Definition count (a : summary) : Z := Z.of_nat (List.length (kept a)).

(** The state after a run that passed every stage. *)
Definition finished (data : pyobj) (a : summary) (s : State) : State :=
  mkState (username s) (is_loading s) (error_message s) data
    (six_stats (count a) (total_views a) (total_reactions a)
               (total_followers a) (total_badges a) (average a))
    (display_name a) (kept a) (count a).

(** What an interrupted run has left alone. *)
Definition interrupted (data : pyobj) (s s' : State) : Prop :=
  username s' = username s /\
  is_loading s' = is_loading s /\
  error_message s' = error_message s /\
  stats_items s' = stats_items s /\
  user_data s' = data.

(** The session once the guards of [handle_submit] are passed, and the
    request it sends. *)
Definition started (w : Session) : Session :=
  on_app (set_error_message None) (on_app (set_is_loading true) w).

Definition the_request (w : Session) : request :=
  mkrequest HASHNODE_API_URL USER_STATS_QUERY (username (app w)) token_text 30.

Definition posted (w : Session) : Session :=
  mkSession (app (started w)) (sent w ++ [the_request w])%list (network w).

(** A step that sends nothing. *)
Definition silent {A : Type} (m : M Session A) : Prop :=
  forall w, sent (fst (m w)) = sent w.

Definition guards_pass (w : Session) : Prop :=
  username (app w) <> "" /\ no_token = false.

Definition msg_unauthorized : string :=
  "Invalid access token. Please check your configuration.".

Definition msg_forbidden : string :=
  "Access forbidden. Please check your permissions.".

(** The state an error path of [handle_submit] leaves: the message is
    shown, nothing is loading, and the aggregation has not run. *)
Definition reports (w : Session) (m : string) (out : Session * result (option string))
  : Prop :=
  snd out = Ok None /\
  error_message (app (fst out)) = Some m /\
  is_loading (app (fst out)) = false /\
  stats_items (app (fst out)) = stats_items (app w) /\
  post_count (app (fst out)) = post_count (app w) /\
  sent (fst out) = (sent w ++ [the_request w])%list.

(** The run of the [try] ends without an exception. *)
Definition succeeds (data : pyobj) (s : State) : Prop :=
  snd (process_stats_try data s) = Ok tt.

(** [post] is a dict whose [publishedAt] is a string that is read as a
    date of the year [y]. *)
Definition published_year (post : pyobj) (y : Z) : Prop :=
  exists d text dt,
    post = VDict d /\
    lookup "publishedAt" d = Some (VStr text) /\
    fromisoformat (str_replace "Z"%char "+00:00" text) = Ok dt /\
    year dt = y.




(** [post] is a dict without a [publishedAt], or with one that is false
    in a condition ([None], the empty string). *)
Definition missing_timestamp (post : pyobj) : Prop :=
  exists d,
    post = VDict d /\
    match lookup "publishedAt" d with
    | None => True
    | Some v => truthy v = false
    end.

(** [post] is a dict whose [publishedAt] is a string the parser rejects. *)
Definition unreadable_timestamp (post : pyobj) : Prop :=
  exists d text e,
    post = VDict d /\
    lookup "publishedAt" d = Some (VStr text) /\
    text <> "" /\
    fromisoformat (str_replace "Z"%char "+00:00" text) = Raise e.

(** A value [sum] cannot add to an integer: anything but an [int] or a
    [bool]. *)
Definition not_summable (v : pyobj) : Prop :=
  match v with
  | VInt _ | VBool _ => False
  | _ => True
  end.

(** The posts a comprehension that ends keeps are those its condition
    accepts, in their order. *)
Definition accepts (cond : pyobj -> result bool) (p : pyobj) : bool :=
  match cond p with Ok true => true | _ => false end.

(** * Properties *)

(** ** The quotient and its rendering *)





(** ** Decimal digits and separators *)

Lemma append_assoc (a b c : string) : ((a ++ b) ++ c = a ++ (b ++ c))%string.
Proof. induction a as [|x a IH]; cbn; [reflexivity|rewrite IH; reflexivity]. Qed.

Lemma str_replace_app (old : ascii) (new s1 s2 : string) :
  str_replace old new (s1 ++ s2) = str_replace old new s1 ++ str_replace old new s2.
Proof.
  induction s1 as [|c s1 IH]; cbn [String.append str_replace]; [reflexivity|].
  rewrite IH. destruct (Ascii.eqb c old); [|reflexivity].
  rewrite append_assoc. reflexivity.
Qed.

















(** ** The stages of a run *)

Ltac fields :=
  cbn [set_user_data set_posts_2024 set_post_count set_user_display_name
       set_stats_items set_is_loading set_error_message posts_2024
       post_count username is_loading error_message user_data stats_items
       user_display_name].

Lemma process_stats_try_spec (data : pyobj) (s : State) :
  match analyse data with
  | Ok a => process_stats_try data s = (finished data a s, Ok tt)
  | Raise e =>
      exists s', process_stats_try data s = (s', Raise e) /\ interrupted data s s'
  end.
Proof.
  unfold analyse, all_posts, badge_total, average_text, process_stats_try,
    finished, count, interrupted, bind, lift, assign, self, ret.
  cbn [set_user_data set_posts_2024 set_post_count set_user_display_name
       set_stats_items posts_2024 post_count username is_loading
       error_message user_data stats_items user_display_name].
  destruct (py_get data "posts" (VDict [])) as [posts|e] eqn:E1; cbn [rbind];
    [|eexists; split; [reflexivity|repeat split]].
  destruct (py_get posts "nodes" (VList [])) as [nodes|e] eqn:E2; cbn [rbind];
    [|eexists; split; [reflexivity|repeat split]].
  destruct (py_iter nodes) as [items|e] eqn:E3; cbn [rbind];
    [|eexists; split; [reflexivity|repeat split]].
  destruct (comprehension in_2024 items) as [k|e] eqn:E4; cbn [rbind];
    [|eexists; split; [reflexivity|repeat split]].
  destruct (sum_field "views" k) as [v|e] eqn:E5; cbn [rbind];
    [|eexists; split; [reflexivity|repeat split]].
  destruct (sum_field "reactionCount" k) as [r|e] eqn:E6; cbn [rbind];
    [|eexists; split; [reflexivity|repeat split]].
  destruct (py_get data "followersCount" (VInt 0)) as [f|e] eqn:E7; cbn [rbind];
    [|eexists; split; [reflexivity|repeat split]].
  destruct (py_get data "badges" VNone) as [b|e] eqn:E8; cbn [rbind];
    [|eexists; split; [reflexivity|repeat split]].
  destruct (truthy b) eqn:Et;
    [ destruct (py_get data "badges" (VList [])) as [l|e] eqn:E8'; cbn [rbind];
        [ destruct (py_len l) as [nb|e] eqn:E8''; cbn [rbind];
            [|eexists; split; [reflexivity|repeat split]]
        |eexists; split; [reflexivity|repeat split]]
    | ].
  all: destruct (py_get data "username" (VStr "")) as [n|e] eqn:E9; cbn [rbind];
    [|eexists; split; [reflexivity|repeat split]].
  all: fields.
  all: destruct (0 <? Z.of_nat (Datatypes.length k)) eqn:E10; [|reflexivity].
  all: fields.
  all: destruct (fmt_div r (Z.of_nat (Datatypes.length k))) as [a|e] eqn:E11;
    cbn [rbind]; [reflexivity|eexists; split; [reflexivity|repeat split]].
Qed.

(** [process_stats] as a function of the stages: the state of a finished
    run, or the degraded one. *)
Lemma process_stats_finished (data : pyobj) (s : State) (a : summary) :
  analyse data = Ok a -> process_stats data s = finished data a s.
Proof.
  intros Ha. unfold process_stats.
  pose proof (process_stats_try_spec data s) as H. rewrite Ha in H.
  rewrite H. reflexivity.
Qed.

Lemma process_stats_degraded (data : pyobj) (s : State) (e : exn) :
  analyse data = Raise e ->
  stats_items (process_stats data s) = [] /\
  post_count (process_stats data s) = 0 /\
  user_data (process_stats data s) = data /\
  username (process_stats data s) = username s /\
  is_loading (process_stats data s) = is_loading s /\
  error_message (process_stats data s) = error_message s.
Proof.
  intros Ha. unfold process_stats.
  pose proof (process_stats_try_spec data s) as H. rewrite Ha in H.
  destruct H as [s' [H [H1 [H2 [H3 [H4 H5]]]]]]. rewrite H.
  cbn. repeat split; assumption.
Qed.

Lemma succeeds_analyse (data : pyobj) (s : State) :
  succeeds data s <-> exists a, analyse data = Ok a.
Proof.
  unfold succeeds. pose proof (process_stats_try_spec data s) as H.
  destruct (analyse data) as [a|e].
  - rewrite H. split; [eauto|reflexivity].
  - destruct H as [s' [H _]]. rewrite H. cbn. split.
    + discriminate.
    + intros [a Ha]. discriminate.
Qed.

Lemma raises_analyse (data : pyobj) (s : State) (e : exn) :
  snd (process_stats_try data s) = Raise e <-> analyse data = Raise e.
Proof.
  pose proof (process_stats_try_spec data s) as H.
  destruct (analyse data) as [a|e'].
  - rewrite H. cbn. split; discriminate.
  - destruct H as [s' [H _]]. rewrite H. cbn. split; congruence.
Qed.

(** ** The comprehension *)

Lemma comprehension_app (cond : pyobj -> result bool) (l1 l2 : list pyobj) :
  comprehension cond (l1 ++ l2) =
  let? k1 := comprehension cond l1 in
  let? k2 := comprehension cond l2 in
  Ok (k1 ++ k2)%list.
Proof.
  induction l1 as [|p l1 IH]; cbn [List.app comprehension rbind].
  - destruct (comprehension cond l2); reflexivity.
  - destruct (cond p) as [keep|e]; cbn [rbind]; [|reflexivity].
    rewrite IH.
    destruct (comprehension cond l1) as [k1|e]; cbn [rbind]; [|reflexivity].
    destruct (comprehension cond l2) as [k2|e]; cbn [rbind]; [|reflexivity].
    destruct keep; reflexivity.
Qed.

(** A post the condition rejects leaves no trace in the comprehension. *)
Lemma comprehension_skip (cond : pyobj -> result bool) (l1 l2 : list pyobj)
      (p : pyobj) :
  cond p = Ok false ->
  comprehension cond (l1 ++ p :: l2) = comprehension cond (l1 ++ l2).
Proof.
  intros Hp. rewrite !comprehension_app. cbn [comprehension]. rewrite Hp.
  cbn [rbind].
  destruct (comprehension cond l1) as [k1|e]; cbn [rbind]; [|reflexivity].
  destruct (comprehension cond l2) as [k2|e]; reflexivity.
Qed.

(** A post on which the condition raises ends the comprehension. *)
Lemma comprehension_raise (cond : pyobj -> result bool) (l : list pyobj)
      (p : pyobj) (e : exn) :
  In p l -> cond p = Raise e -> exists e', comprehension cond l = Raise e'.
Proof.
  induction l as [|q l IH]; intros Hin Hp; [contradiction|].
  cbn [comprehension]. destruct Hin as [->|Hin].
  - rewrite Hp. cbn. eauto.
  - destruct (cond q) as [keep|e1]; cbn [rbind]; [|eauto].
    destruct (IH Hin Hp) as [e' ->]. cbn. eauto.
Qed.

Lemma comprehension_filter (cond : pyobj -> result bool) (l k : list pyobj) :
  comprehension cond l = Ok k ->
  k = filter (accepts cond) l /\ Forall (fun p => exists b, cond p = Ok b) l.
Proof.
  revert k. induction l as [|p l IH]; intros k H; cbn [comprehension] in H.
  - inversion H. split; [reflexivity|constructor].
  - unfold accepts. cbn [filter].
    destruct (cond p) as [keep|e] eqn:Hp; cbn [rbind] in H; [|discriminate].
    destruct (comprehension cond l) as [k'|e] eqn:Hl; cbn [rbind] in H;
      [|discriminate].
    destruct (IH k' eq_refl) as [Hk HF]. inversion H; subst.
    split; [destruct keep; reflexivity|].
    constructor; eauto.
Qed.

Lemma published_outside (post : pyobj) (y : Z) :
  published_year post y -> y <> 2024 -> in_2024 post = Ok false.
Proof.
  intros (d & text & dt & -> & Hl & Hp & Hy) Hne. unfold in_2024.
  cbn [py_get rbind]. rewrite Hl. cbn [truthy].
  destruct (String.eqb text ""); cbn [negb]; [reflexivity|].
  cbn [py_getitem]. rewrite Hl. cbn [rbind py_replace_Z]. rewrite Hp.
  cbn [rbind]. subst y. apply Z.eqb_neq in Hne. rewrite Hne. reflexivity.
Qed.

(** ** Records with a list of posts *)

Lemma all_posts_with_nodes (fields : list (string * pyobj)) (nodes : list pyobj) :
  all_posts (with_nodes fields nodes) = Ok nodes.
Proof. reflexivity. Qed.

Lemma get_with_nodes (fields : list (string * pyobj)) (l1 l2 : list pyobj)
      (key : string) (default : pyobj) :
  String.eqb "posts" key = false ->
  py_get (with_nodes fields l1) key default = py_get (with_nodes fields l2) key default.
Proof.
  intros H. unfold with_nodes, py_get. cbn [lookup]. rewrite H. reflexivity.
Qed.

Lemma badge_total_with_nodes (fields : list (string * pyobj)) (l1 l2 : list pyobj) :
  badge_total (with_nodes fields l1) = badge_total (with_nodes fields l2).
Proof.
  unfold badge_total.
  rewrite (get_with_nodes fields l1 l2 "badges" VNone) by reflexivity.
  rewrite (get_with_nodes fields l1 l2 "badges" (VList [])) by reflexivity.
  reflexivity.
Qed.

(** The stages after the loop see the record only through the posts the
    comprehension keeps. *)
Lemma analyse_same_kept (fields : list (string * pyobj)) (l1 l2 : list pyobj) :
  comprehension in_2024 l1 = comprehension in_2024 l2 ->
  analyse (with_nodes fields l1) = analyse (with_nodes fields l2).
Proof.
  intros H. unfold analyse. rewrite !all_posts_with_nodes. cbn [rbind].
  rewrite H.
  rewrite (get_with_nodes fields l1 l2 "followersCount" (VInt 0)) by reflexivity.
  rewrite (get_with_nodes fields l1 l2 "username" (VStr "")) by reflexivity.
  rewrite (badge_total_with_nodes fields l1 l2).
  reflexivity.
Qed.

Lemma process_stats_same_kept (fields : list (string * pyobj)) (l1 l2 : list pyobj)
      (s : State) :
  comprehension in_2024 l1 = comprehension in_2024 l2 ->
  let s1 := process_stats (with_nodes fields l1) s in
  let s2 := process_stats (with_nodes fields l2) s in
  post_count s1 = post_count s2 /\
  stats_items s1 = stats_items s2 /\
  (succeeds (with_nodes fields l1) s <-> succeeds (with_nodes fields l2) s) /\
  (succeeds (with_nodes fields l1) s -> posts_2024 s1 = posts_2024 s2).
Proof.
  intros H s1 s2. subst s1 s2.
  pose proof (analyse_same_kept fields l1 l2 H) as Ha.
  rewrite !succeeds_analyse. rewrite Ha.
  destruct (analyse (with_nodes fields l2)) as [a|e] eqn:E2.
  - rewrite (process_stats_finished _ s a Ha).
    rewrite (process_stats_finished _ s a E2).
    cbn. repeat split; auto.
  - destruct (process_stats_degraded _ s e Ha) as (A1 & A2 & _).
    destruct (process_stats_degraded _ s e E2) as (B1 & B2 & _).
    rewrite A1, A2, B1, B2. repeat split; auto.
    intros [a Hx]; discriminate.
Qed.

(** ** Records of the data model *)










(** ** The metrics *)

Lemma metric_finished (data : pyobj) (a : summary) (s : State) :
  metric "Total Articles" (finished data a s) = Some (str_int (count a)) /\
  metric "Total Views" (finished data a s) = Some (format_commas (total_views a)) /\
  metric "Total Reactions" (finished data a s) = Some (str_int (total_reactions a)) /\
  metric "Followers" (finished data a s) = Some (py_str (total_followers a)) /\
  metric "Badges Earned" (finished data a s) = Some (str_int (total_badges a)) /\
  metric "Avg. Reactions" (finished data a s) = Some (average a).
Proof. repeat split. Qed.



(** C2. A post whose publishedAt is read as a date of a year other than
    2024 is excluded: the aggregation of a record gives the same post
    count and the same metrics with the post and without it, and the post
    is not among the retained ones.  After a run that ends normally the
    post count is the number of retained posts, "Total Articles" shows that
    count, the two totals are sums over the retained posts only, and
    "Avg. Reactions" divides the total of reactions by that same count. *)
Theorem year_filter_excludes
        (fields : list (string * pyobj)) (before after : list pyobj)
        (post : pyobj) (y : Z) (s : State) :
  published_year post y -> y <> 2024 ->
  let data := with_nodes fields (before ++ post :: after)%list in
  let s' := process_stats data s in
  let without := process_stats (with_nodes fields (before ++ after)%list) s in
  (post_count s' = post_count without /\ stats_items s' = stats_items without) /\
  (succeeds data s ->
   ~ In post (posts_2024 s') /\
   posts_2024 s' = posts_2024 without /\
   posts_2024 s' = filter (accepts in_2024) (before ++ after)%list /\
   post_count s' = Z.of_nat (List.length (posts_2024 s')) /\
   metric "Total Articles" s' = Some (str_int (post_count s')) /\
   exists views reactions average,
     sum_field "views" (posts_2024 s') = Ok views /\
     sum_field "reactionCount" (posts_2024 s') = Ok reactions /\
     average_text reactions (post_count s') = Ok average /\
     metric "Total Views" s' = Some (format_commas views) /\
     metric "Total Reactions" s' = Some (str_int reactions) /\
     metric "Avg. Reactions" s' = Some average).
Proof.
  intros Hy Hne data s' without. subst data s' without.
  pose proof (published_outside post y Hy Hne) as Hout.
  pose proof (comprehension_skip in_2024 before after post Hout) as Hskip.
  destruct (process_stats_same_kept fields _ _ s Hskip) as (H1 & H2 & H3 & H4).
  split; [split; assumption|].
  intros Hs. specialize (H4 Hs).
  apply succeeds_analyse in Hs. destruct Hs as [a Ha].
  rewrite <- H4. clear H1 H2 H3 H4.
  rewrite (process_stats_finished _ s a Ha).
  cbn [posts_2024 post_count finished].
  unfold analyse in Ha. rewrite all_posts_with_nodes in Ha. cbn [rbind] in Ha.
  destruct (comprehension in_2024 (before ++ post :: after)%list) as [k|e] eqn:Hk;
    cbn [rbind] in Ha; [|discriminate].
  destruct (sum_field "views" k) as [v|e] eqn:Hv; cbn [rbind] in Ha; [|discriminate].
  destruct (sum_field "reactionCount" k) as [rc|e] eqn:Hrc; cbn [rbind] in Ha;
    [|discriminate].
  destruct (py_get _ "followersCount" _) as [f|e]; cbn [rbind] in Ha; [|discriminate].
  destruct (badge_total _) as [b|e]; cbn [rbind] in Ha; [|discriminate].
  destruct (py_get _ "username" _) as [nm|e]; cbn [rbind] in Ha; [|discriminate].
  destruct (average_text rc (Z.of_nat (Datatypes.length k))) as [av|e] eqn:Hav;
    cbn [rbind] in Ha; [|discriminate].
  inversion Ha; subst a; clear Ha. cbn [kept count].
  symmetry in Hskip.
  destruct (comprehension_filter in_2024 _ k Hskip) as [Hkf _].
  split.
  { rewrite Hkf. intros Hin. apply filter_In in Hin. destruct Hin as [_ Hacc].
    unfold accepts in Hacc. rewrite Hout in Hacc. discriminate. }
  split; [reflexivity|]. split; [exact Hkf|]. split; [reflexivity|].
  split; [reflexivity|].
  exists v, rc, av. unfold count. cbn [kept].
  repeat split; assumption.
Qed.

(** C3. An exception in the body of the aggregation does not leave
    [process_stats]: the state it returns shows an empty sequence of
    metrics and a post count of zero, and it keeps the record it was
    given. *)
Theorem degrade_to_empty (data : pyobj) (s : State) (e : exn) :
  snd (process_stats_try data s) = Raise e ->
  stats_items (process_stats data s) = [] /\
  post_count (process_stats data s) = 0 /\
  user_data (process_stats data s) = data /\
  error_message (process_stats data s) = error_message s.
Proof.
  intros H. apply raises_analyse in H.
  destruct (process_stats_degraded data s e H) as (H1 & H2 & H3 & _ & _ & H6).
  repeat split; assumption.
Qed.

(** Malformed shapes on which the body raises: a record that is not a
    dict, a field of posts that is not one, a list of posts that cannot be
    iterated, a post that is not a dict. *)
Lemma malformed_shapes (s : State) (fields : list (string * pyobj)) (z : Z)
      (before after : list pyobj) :
  (exists e, snd (process_stats_try (VInt z) s) = Raise e) /\
  (exists e, snd (process_stats_try (VList before) s) = Raise e) /\
  (exists e, snd (process_stats_try (VDict (("posts", VNone) :: fields)) s) = Raise e) /\
  (exists e, snd (process_stats_try
                    (VDict (("posts", VDict [("nodes", VInt z)]) :: fields)) s)
             = Raise e) /\
  (exists e, snd (process_stats_try
                    (with_nodes fields (before ++ VInt z :: after)%list) s)
             = Raise e).
Proof.
  repeat split; try (exists AttributeError; reflexivity);
    try (exists TypeError; reflexivity).
  assert (H : exists e, comprehension in_2024 (before ++ VInt z :: after)%list = Raise e).
  { apply (comprehension_raise in_2024 _ (VInt z) AttributeError).
    - apply in_or_app. right. left. reflexivity.
    - reflexivity. }
  destruct H as [e He]. exists e. apply raises_analyse.
  unfold analyse. rewrite all_posts_with_nodes. cbn [rbind]. rewrite He.
  reflexivity.
Qed.



Lemma missing_dropped (post : pyobj) :
  missing_timestamp post -> in_2024 post = Ok false.
Proof.
  intros (d & -> & H). unfold in_2024. cbn [py_get rbind].
  destruct (lookup "publishedAt" d) as [v|]; [rewrite H|]; reflexivity.
Qed.

Lemma unreadable_raises (post : pyobj) :
  unreadable_timestamp post -> exists e, in_2024 post = Raise e.
Proof.
  intros (d & text & e & -> & Hl & Hne & Hp). exists e.
  unfold in_2024. cbn [py_get rbind]. rewrite Hl. cbn [truthy].
  apply String.eqb_neq in Hne. rewrite Hne. cbn [negb py_getitem].
  rewrite Hl. cbn [rbind py_replace_Z]. rewrite Hp. reflexivity.
Qed.

(** C4, as the code has it.  A post whose publishedAt is missing (absent,
    [None] or empty) is dropped by the filter and the other posts are
    aggregated as if it were not there.  A post whose publishedAt is a
    string the parser rejects is not dropped: the exception ends the
    aggregation, which shows no metric and a post count of zero,
    whatever the other posts are. *)
Theorem missing_dropped_unreadable_degrades
        (fields : list (string * pyobj)) (s : State) :
  (forall before after post,
     missing_timestamp post ->
     let s' := process_stats (with_nodes fields (before ++ post :: after)%list) s in
     let without := process_stats (with_nodes fields (before ++ after)%list) s in
     post_count s' = post_count without /\
     stats_items s' = stats_items without /\
     (succeeds (with_nodes fields (before ++ post :: after)%list) s <->
      succeeds (with_nodes fields (before ++ after)%list) s)) /\
  (forall nodes post,
     In post nodes ->
     unreadable_timestamp post ->
     let s' := process_stats (with_nodes fields nodes) s in
     stats_items s' = [] /\ post_count s' = 0).
Proof.
  split.
  - intros before after post Hm s' without. subst s' without.
    pose proof (comprehension_skip in_2024 before after post (missing_dropped post Hm))
      as Hskip.
    destruct (process_stats_same_kept fields _ _ s Hskip) as (H1 & H2 & H3 & _).
    repeat split; try assumption; apply H3.
  - intros nodes post Hin Hu s'. subst s'.
    destruct (unreadable_raises post Hu) as [e He].
    destruct (comprehension_raise in_2024 nodes post e Hin He) as [e' He'].
    assert (Ha : analyse (with_nodes fields nodes) = Raise e').
    { unfold analyse. rewrite all_posts_with_nodes. cbn [rbind]. rewrite He'.
      reflexivity. }
    destruct (process_stats_degraded _ s e' Ha) as (H1 & H2 & _).
    split; assumption.
Qed.

(** ** The year the filter compares *)

(** C5, as the code has it.  The filter compares the year field of the
    parsed publishedAt, the year as the timestamp writes it, with 2024.
    Every "Z" is replaced by "+00:00" before the parse, so a trailing "Z"
    is read as the offset +00:00.  For a timestamp without offset or with
    the offset zero the year written is the calendar year in UTC; no
    timestamp is converted to UTC. *)
Theorem year_as_written :
  (forall d text dt,
     lookup "publishedAt" d = Some (VStr text) ->
     text <> "" ->
     fromisoformat (str_replace "Z"%char "+00:00" text) = Ok dt ->
     in_2024 (VDict d) = Ok (year dt =? 2024)) /\
  (forall text,
     str_replace "Z"%char "+00:00" (text ++ "Z")
     = str_replace "Z"%char "+00:00" text ++ "+00:00") /\
  (forall dt,
     utcoffset dt = None \/ utcoffset dt = Some 0 ->
     0 <= time_of_day dt < 86400000000 ->
     utc_year dt = year dt).
Proof.
  split; [|split].
  - intros d text dt Hl Hne Hp. unfold in_2024. cbn [py_get rbind].
    rewrite Hl. cbn [truthy]. apply String.eqb_neq in Hne. rewrite Hne.
    cbn [negb py_getitem]. rewrite Hl. cbn [rbind py_replace_Z]. rewrite Hp.
    reflexivity.
  - intros text. rewrite str_replace_app. reflexivity.
  - intros dt Hoff Ht. unfold utc_year.
    assert (Ho : match utcoffset dt with Some o => o | None => 0 end = 0)
      by (destruct Hoff as [-> | ->]; reflexivity).
    rewrite Ho. rewrite Z.sub_0_r.
    destruct (time_of_day dt <? 0) eqn:E1; [apply Z.ltb_lt in E1; lia|].
    destruct (86400000000 <=? time_of_day dt) eqn:E2; [apply Z.leb_le in E2; lia|].
    reflexivity.
Qed.

(** ** The submit workflow *)

Ltac session :=
  cbn [app sent network on_app started posted fst snd
       set_user_data set_posts_2024 set_post_count set_user_display_name
       set_stats_items set_is_loading set_error_message posts_2024
       post_count username is_loading error_message user_data stats_items
       user_display_name].

Lemma handle_submit_guarded (w : Session) :
  guards_pass w ->
  handle_submit w =
  try_finally (try_except handle_submit_try handle_submit_except)
              (assign (on_app (set_is_loading false))) (started w).
Proof.
  intros [Hu Ht]. unfold handle_submit, bind, self, assign.
  apply String.eqb_neq in Hu. rewrite Hu, Ht. reflexivity.
Qed.

(** An exception in the body: the matching [except] clause sets the
    message, and the [finally] clause ends the loading. *)
Lemma handle_submit_raises (w : Session) (e : exn) :
  guards_pass w ->
  handle_submit_try (started w) = (posted w, Raise e) ->
  handle_submit w =
  (on_app (set_is_loading false) (fst (handle_submit_except e (posted w))), Ok None).
Proof.
  intros Hg Ht. rewrite (handle_submit_guarded w Hg).
  unfold try_finally, try_except. rewrite Ht.
  unfold handle_submit_except, bind, set_error, assign, ret.
  destruct e; try reflexivity.
  destruct (status =? 401); [reflexivity|].
  destruct (status =? 403); reflexivity.
Qed.

Lemma try_transport_failure (w : Session) (e : exn) :
  network w (List.length (sent w)) = Failed e ->
  handle_submit_try (started w) = (posted w, Raise e).
Proof.
  intros Hn. unfold handle_submit_try, bind, self, client_post. session.
  rewrite Hn. reflexivity.
Qed.

Lemma try_status_error (w : Session) (resp : response) :
  network w (List.length (sent w)) = Responded resp ->
  (200 <=? status_code resp) && (status_code resp <=? 299) = false ->
  handle_submit_try (started w)
  = (posted w, Raise (HTTPStatusError (status_code resp) (status_text resp))).
Proof.
  intros Hn Hs. unfold handle_submit_try, bind, self, client_post, lift,
    raise_for_status. session.
  rewrite Hn, Hs. reflexivity.
Qed.

Lemma silent_ret {A : Type} (a : A) : silent (ret a).
Proof. intros w. reflexivity. Qed.

Lemma silent_lift {A : Type} (r : result A) : silent (lift r).
Proof. intros w. reflexivity. Qed.

Lemma silent_self {A : Type} (f : Session -> A) : silent (self f).
Proof. intros w. reflexivity. Qed.

Lemma silent_on_app (f : State -> State) : silent (assign (on_app f)).
Proof. intros w. reflexivity. Qed.

Lemma silent_bind {A B : Type} (m : M Session A) (k : A -> M Session B) :
  silent m -> (forall a, silent (k a)) -> silent (bind m k).
Proof.
  intros Hm Hk w. unfold bind. specialize (Hm w).
  destruct (m w) as [w' [a|e]]; cbn [fst] in *; [|exact Hm].
  rewrite (Hk a w'). exact Hm.
Qed.

Ltac silence :=
  repeat first
    [ apply silent_ret | apply silent_lift | apply silent_self
    | apply silent_on_app
    | apply silent_bind; [|intros ?]
    | match goal with
      | |- silent (if ?c then _ else _) => destruct c
      | |- silent (match ?e with _ => _ end) => destruct e
      end ].

Lemma handle_submit_except_silent (e : exn) : silent (handle_submit_except e).
Proof. unfold handle_submit_except, set_error. silence. Qed.

(** The body sends the one request of its first step. *)
Lemma handle_submit_try_once (w : Session) :
  sent (fst (handle_submit_try w)) = (sent w ++ [the_request w])%list.
Proof.
  unfold handle_submit_try.
  unfold bind at 1. unfold self at 1. unfold bind at 1.
  unfold client_post at 1.
  destruct (network w (Datatypes.length (sent w))) as [resp|e]; [|reflexivity].
  match goal with
  | |- sent (fst (?k ?w1)) = _ =>
      assert (H : silent k); [|rewrite (H w1); reflexivity]
  end.
  unfold handle_document, set_error. silence.
Qed.

(** C8. A response with status 401 gives the message of an invalid token
    (the one an authentication error of the API gives), not a network
    error; status 403 gives the message of a forbidden access; any other
    status outside 200..299 gives "HTTP Error: " and the text of the status
    error; a failure of the transport gives "Network Error: " and its
    text.  In each case one request has been sent, and no other. *)
Theorem http_outcomes (w : Session) :
  guards_pass w ->
  (forall resp,
     network w (List.length (sent w)) = Responded resp ->
     (status_code resp = 401 -> reports w msg_unauthorized (handle_submit w)) /\
     (status_code resp = 403 -> reports w msg_forbidden (handle_submit w)) /\
     (~ 200 <= status_code resp <= 299 ->
      status_code resp <> 401 -> status_code resp <> 403 ->
      reports w ("HTTP Error: " ++ status_text resp) (handle_submit w))) /\
  (forall detail,
     network w (List.length (sent w)) = Failed (RequestError detail) ->
     reports w ("Network Error: " ++ detail) (handle_submit w)) /\
  sent (fst (handle_submit w)) = (sent w ++ [the_request w])%list.
Proof.
  intros Hg. split; [|split].
  - intros resp Hn.
    assert (Hbad : ~ 200 <= status_code resp <= 299 ->
                   handle_submit w =
                   (on_app (set_is_loading false)
                      (fst (handle_submit_except
                              (HTTPStatusError (status_code resp) (status_text resp))
                              (posted w))), Ok None)).
    { intros Hs. apply (handle_submit_raises w _ Hg).
      apply (try_status_error w resp Hn).
      destruct (200 <=? status_code resp) eqn:E1; [|reflexivity].
      destruct (status_code resp <=? 299) eqn:E2; [|reflexivity].
      apply Z.leb_le in E1. apply Z.leb_le in E2. lia. }
    split; [|split].
    + intros Hs. rewrite Hbad by lia. rewrite Hs. unfold reports. cbn.
      repeat split.
    + intros Hs. rewrite Hbad by lia. rewrite Hs. unfold reports. cbn.
      repeat split.
    + intros Hs H401 H403. rewrite (Hbad Hs).
      unfold handle_submit_except, bind, set_error, assign, ret.
      apply Z.eqb_neq in H401. apply Z.eqb_neq in H403. rewrite H401, H403.
      unfold reports. cbn. repeat split.
  - intros detail Hn.
    rewrite (handle_submit_raises w _ Hg (try_transport_failure w _ Hn)).
    unfold reports. cbn. repeat split.
  - rewrite (handle_submit_guarded w Hg).
    unfold try_finally, try_except, assign.
    pose proof (handle_submit_try_once (started w)) as Hs.
    destruct (handle_submit_try (started w)) as [w1 [a|e]]; cbn [fst] in *.
    + exact Hs.
    + pose proof (handle_submit_except_silent e w1) as He.
      destruct (handle_submit_except e w1) as [w2 r2]. cbn [fst] in *.
      cbn. rewrite He. exact Hs.
Qed.

(** Without a username or without a token nothing is sent. *)
Lemma no_request_without_guards (w : Session) :
  username (app w) = "" \/ no_token = true ->
  sent (fst (handle_submit w)) = sent w /\
  snd (handle_submit w) = Ok None /\
  exists m, error_message (app (fst (handle_submit w))) = Some m.
Proof.
  intros H. unfold handle_submit, bind, self, set_error, assign, ret.
  destruct (String.eqb (username (app w)) "") eqn:E.
  - cbn. eauto.
  - destruct H as [H|H]; [rewrite H in E; discriminate|].
    rewrite H. cbn. eauto.
Qed.

(** The body on a decoded document. *)
Lemma try_decoded (w : Session) (resp : response) (data : pyobj) :
  network w (List.length (sent w)) = Responded resp ->
  200 <= status_code resp <= 299 ->
  json resp = Ok data ->
  handle_submit_try (started w) = handle_document data (posted w).
Proof.
  intros Hn Hs Hj.
  unfold handle_submit_try.
  unfold bind at 1. unfold self at 1. unfold bind at 1.
  unfold client_post at 1. session. rewrite Hn.
  unfold bind at 1. unfold lift at 1. unfold raise_for_status.
  assert (Hok : (200 <=? status_code resp) && (status_code resp <=? 299) = true).
  { apply andb_true_iff. split; apply Z.leb_le; lia. }
  rewrite Hok.
  unfold bind at 1. unfold lift at 1. rewrite Hj. reflexivity.
Qed.

Lemma handle_submit_returns (w w' : Session) (v : option string) :
  guards_pass w ->
  handle_submit_try (started w) = (w', Ok v) ->
  handle_submit w = (on_app (set_is_loading false) w', Ok v).
Proof.
  intros Hg Ht. rewrite (handle_submit_guarded w Hg).
  unfold try_finally, try_except. rewrite Ht. reflexivity.
Qed.

(** ** The search in the message of an error *)

(** [prefixb] and [substringb] decide that a text starts with, and that it
    contains, another. *)
Lemma prefixb_spec (p s : string) :
  prefixb p s = true <-> exists rest, s = p ++ rest.
Proof.
  revert s. induction p as [|a p IH]; intros s; cbn [prefixb].
  - split; [intros _; exists s; reflexivity | reflexivity].
  - destruct s as [|b s].
    + split; [discriminate | intros [r H]; discriminate].
    + rewrite Bool.andb_true_iff, Ascii.eqb_eq, IH. split.
      * intros [Hab [r Hr]]. subst. exists r. reflexivity.
      * intros [r H]. cbn in H. inversion H; subst.
        split; [reflexivity | exists r; reflexivity].
Qed.

Lemma substringb_spec (p s : string) :
  substringb p s = true <-> exists before after, s = before ++ p ++ after.
Proof.
  induction s as [|c s IH]; cbn [substringb];
    rewrite Bool.orb_true_iff, prefixb_spec.
  - split.
    + intros [[r H] | H]; [|discriminate]. exists "", r. exact H.
    + intros [b [a H]]. left. destruct b; [exists a; exact H | discriminate].
  - rewrite IH. split.
    + intros [[r H] | [b [a H]]].
      * exists "", r. exact H.
      * exists (String c b), a. cbn. rewrite H. reflexivity.
    + intros [b [a H]]. destruct b as [|c' b].
      * left. exists a. exact H.
      * right. cbn in H. inversion H. exists b, a. reflexivity.
Qed.

(** [lower] works character by character. *)
Lemma lower_app (s t : string) : lower (s ++ t) = lower s ++ lower t.
Proof.
  induction s as [|c s IH]; cbn; [reflexivity|]. rewrite IH. reflexivity.
Qed.

Lemma lower_split (m a b : string) :
  lower m = a ++ b ->
  exists a' b', m = a' ++ b' /\ lower a' = a /\ lower b' = b.
Proof.
  revert m. induction a as [|c a IH]; intros m H.
  - exists "", m. repeat split. exact H.
  - destruct m as [|c' m]; [discriminate|]. cbn in H. injection H as Hc Hm.
    destruct (IH m Hm) as (a' & b' & Hs & Ha & Hb).
    exists (String c' a'), b'. cbn. rewrite Hc, Ha, Hs. repeat split. exact Hb.
Qed.

(** A character becomes [k], which is not a capital, exactly when it is
    [k] or the capital of [k]. *)
Lemma lower_ascii_spec (c k : ascii) :
  is_capital k = false -> (lower_ascii c = k <-> same_letter c k).
Proof.
  intros Hk. unfold same_letter, capital_of.
  change (lower_ascii c)
    with (if is_capital c then ascii_of_nat (nat_of_ascii c + 32) else c).
  destruct (is_capital c) eqn:E.
  - assert (Hc : (nat_of_ascii c + 32 < 256)%nat).
    { unfold is_capital in E. apply Bool.andb_true_iff in E.
      destruct E as [_ E]. apply Nat.leb_le in E. lia. }
    split.
    + intros H. right. left. split; [reflexivity|].
      rewrite <- H. rewrite nat_ascii_embedding; [reflexivity | exact Hc].
    + intros [H | [[_ H] | [H _]]].
      * subst k. rewrite E in Hk. discriminate.
      * rewrite <- H. apply ascii_nat_embedding.
      * rewrite H in Hk. discriminate.
  - split.
    + intros H. left. exact H.
    + intros [H | [[H _] | [H _]]]; [exact H | discriminate |].
      rewrite H in Hk. discriminate.
Qed.

Lemma lower_same (text word : string) :
  no_capital word = true ->
  (lower text = word <-> same_ignoring_case text word).
Proof.
  revert word. induction text as [|c text IH]; intros [|k word] Hw; cbn.
  - split; [exact (fun _ => I) | reflexivity].
  - split; [discriminate | contradiction].
  - split; [discriminate | contradiction].
  - cbn in Hw. apply Bool.andb_true_iff in Hw. destruct Hw as [Hk Hw].
    apply Bool.negb_true_iff in Hk. split.
    + intros H. inversion H as [[Hc Ht]]. rewrite Hc, Ht. split.
      * apply (lower_ascii_spec c k Hk). exact Hc.
      * apply (IH word Hw). exact Ht.
    + intros [Hc Ht]. apply (lower_ascii_spec c k Hk) in Hc.
      apply (IH word Hw) in Ht. rewrite Hc, Ht. reflexivity.
Qed.

(** The search of the code, a word without capitals looked for in the
    message in lower case, finds the word exactly when the message mentions
    it in whatever case. *)
Lemma substringb_lower (word m : string) :
  no_capital word = true ->
  (substringb word (lower m) = true <-> mentions word m).
Proof.
  intros Hw. rewrite substringb_spec. unfold mentions. split.
  - intros (a & b & H). apply lower_split in H.
    destruct H as (a' & r & -> & Ha & Hr). apply lower_split in Hr.
    destruct Hr as (p' & b' & -> & Hp & Hb).
    exists a', p', b'. split; [reflexivity|]. apply (lower_same _ _ Hw). exact Hp.
  - intros (a & p & b & -> & H). exists (lower a), (lower b).
    rewrite !lower_app. apply (lower_same _ _ Hw) in H. rewrite H. reflexivity.
Qed.

(** The branch of the errors, by the two searches of the code. *)
Lemma errors_outcome (w : Session) (resp : response)
      (d : list (string * pyobj)) (first : pyobj) (rest : list pyobj) (m : string) :
  guards_pass w ->
  network w (List.length (sent w)) = Responded resp ->
  200 <= status_code resp <= 299 ->
  json resp = Ok (VDict d) ->
  lookup "errors" d = Some (VList (first :: rest)) ->
  py_get first "message" (VStr "Unknown GraphQL error") = Ok (VStr m) ->
  reports w
    (if substringb "unauthorized" (lower m) || substringb "authentication" (lower m)
     then msg_unauthorized else "API Error: " ++ m)
    (handle_submit w).
Proof.
  intros Hg Hn Hs Hj He Hm.
  pose proof (try_decoded w resp (VDict d) Hn Hs Hj) as Ht.
  assert (Hrun : handle_submit_try (started w) =
                 (on_app (set_error_message
                    (Some (if substringb "unauthorized" (lower m)
                              || substringb "authentication" (lower m)
                           then msg_unauthorized else "API Error: " ++ m)))
                    (posted w), Ok None)).
  { rewrite Ht. unfold handle_document, bind, lift, py_contains, py_getitem. rewrite He.
    cbn [py_first]. rewrite Hm. cbn [py_lower].
    destruct (substringb "unauthorized" (lower m)) eqn:E1; cbn [orb].
    - reflexivity.
    - destruct (substringb "authentication" (lower m)) eqn:E2; reflexivity. }
  rewrite (handle_submit_returns w _ _ Hg Hrun).
  unfold reports. cbn. repeat split.
Qed.

(** C7. On a response with a status in 200..299 and a decoded body: when
    the body has a list of errors, the outcome is the message of an invalid
    token when the message of the first error mentions "unauthorized" or
    "authentication" in whatever case (the message is some text, the
    letters of the word each in either case, some text), and "API Error: "
    with the message when it mentions neither; this is what the two
    searches of the code in the message in lower case decide.  When the
    body has no errors and its user is absent or null, the outcome is
    "User not found"; when it has a user, the record is aggregated and the
    method redirects to the statistics. *)
Theorem body_outcomes (w : Session) (resp : response)
        (d : list (string * pyobj)) :
  guards_pass w ->
  network w (List.length (sent w)) = Responded resp ->
  200 <= status_code resp <= 299 ->
  json resp = Ok (VDict d) ->
  (forall first rest m,
     lookup "errors" d = Some (VList (first :: rest)) ->
     py_get first "message" (VStr "Unknown GraphQL error") = Ok (VStr m) ->
     (mentions "unauthorized" m \/ mentions "authentication" m ->
      reports w msg_unauthorized (handle_submit w)) /\
     (~ mentions "unauthorized" m -> ~ mentions "authentication" m ->
      reports w ("API Error: " ++ m) (handle_submit w)) /\
     (substringb "unauthorized" (lower m) || substringb "authentication" (lower m)
      = true <-> mentions "unauthorized" m \/ mentions "authentication" m) /\
     reports w
       (if substringb "unauthorized" (lower m) || substringb "authentication" (lower m)
        then msg_unauthorized else "API Error: " ++ m)
       (handle_submit w)) /\
  (forall payload,
     lookup "errors" d = None ->
     py_get (VDict d) "data" (VDict []) = Ok (VDict payload) ->
     lookup "user" payload = None \/ lookup "user" payload = Some VNone ->
     reports w "User not found" (handle_submit w)) /\
  (forall payload user,
     lookup "errors" d = None ->
     lookup "data" d = Some (VDict payload) ->
     lookup "user" payload = Some user ->
     truthy user = true ->
     handle_submit w =
     (on_app (set_is_loading false) (on_app (process_stats user) (posted w)),
      Ok (Some "/stats"))).
Proof.
  intros Hg Hn Hs Hj. pose proof (try_decoded w resp (VDict d) Hn Hs Hj) as Ht.
  split; [|split].
  - intros first rest m He Hm.
    pose proof (errors_outcome w resp d first rest m Hg Hn Hs Hj He Hm) as Hr.
    pose proof (substringb_lower "unauthorized" m eq_refl) as H1.
    pose proof (substringb_lower "authentication" m eq_refl) as H2.
    assert (Hiff : substringb "unauthorized" (lower m)
                   || substringb "authentication" (lower m) = true <->
                   mentions "unauthorized" m \/ mentions "authentication" m).
    { rewrite Bool.orb_true_iff, H1, H2. reflexivity. }
    split; [|split; [|split; [exact Hiff | exact Hr]]].
    + intros H. apply Hiff in H. rewrite H in Hr. exact Hr.
    + intros N1 N2.
      destruct (substringb "unauthorized" (lower m)
                || substringb "authentication" (lower m)) eqn:E.
      * destruct (proj1 Hiff eq_refl) as [H | H]; [destruct (N1 H) | destruct (N2 H)].
      * exact Hr.
  - intros payload He Hp Hu.
    assert (Hrun : handle_submit_try (started w) =
                   (on_app (set_error_message (Some "User not found")) (posted w),
                    Ok None)).
    { rewrite Ht. unfold handle_document, bind, lift. unfold py_contains. rewrite He.
      rewrite Hp. unfold py_get.
      destruct Hu as [-> | ->]; reflexivity. }
    rewrite (handle_submit_returns w _ _ Hg Hrun).
    unfold reports. cbn. repeat split.
  - intros payload user He Hp Hu Htr.
    apply (handle_submit_returns w _ _ Hg).
    rewrite Ht. unfold handle_document, bind, lift. unfold py_contains. rewrite He.
    unfold py_get, py_getitem. rewrite Hp, Hu, Htr. reflexivity.
Qed.

(** ** The store under the aggregation *)

Lemma growing_ret {A : Type} (a : A) : growing (ret a).
Proof. intros w. exists []. cbn. rewrite app_nil_r. reflexivity. Qed.

Lemma growing_lift {A : Type} (r : result A) : growing (lift r).
Proof. intros w. exists []. cbn. rewrite app_nil_r. reflexivity. Qed.

Lemma growing_self {A : Type} (f : World -> A) : growing (self f).
Proof. intros w. exists []. cbn. rewrite app_nil_r. reflexivity. Qed.

Lemma growing_reading {A : Type} (f : list hobj -> result A) : growing (reading f).
Proof. intros w. exists []. cbn. rewrite app_nil_r. reflexivity. Qed.

Lemma growing_on_me (f : RState -> RState) : growing (assign (on_me f)).
Proof. intros w. exists []. cbn. rewrite app_nil_r. reflexivity. Qed.

Lemma growing_alloc (o : hobj) : growing (alloc o).
Proof. intros w. exists [o]. reflexivity. Qed.

Lemma growing_bind {A B : Type} (m : M World A) (k : A -> M World B) :
  growing m -> (forall a, growing (k a)) -> growing (bind m k).
Proof.
  intros Hm Hk w. unfold bind. destruct (Hm w) as [more1 H1].
  destruct (m w) as [w1 [a|e]]; cbn [fst] in *.
  - destruct (Hk a w1) as [more2 H2]. exists (more1 ++ more2)%list.
    rewrite H2, H1, app_assoc. reflexivity.
  - exists more1. exact H1.
Qed.

Ltac grow :=
  repeat first
    [ apply growing_ret | apply growing_lift | apply growing_self
    | apply growing_reading | apply growing_on_me | apply growing_alloc
    | apply growing_bind; [|intros ?]
    | match goal with
      | |- growing (if ?c then _ else _) => destruct c
      end ].

Lemma ref_process_stats_try_growing (data : hval) :
  growing (ref_process_stats_try data).
Proof. unfold ref_process_stats_try. grow. Qed.

Lemma ref_process_stats_grows (data : hval) (w : World) :
  exists more, heap (ref_process_stats data w) = (heap w ++ more)%list.
Proof.
  unfold ref_process_stats.
  destruct (ref_process_stats_try_growing data w) as [more H].
  destruct (ref_process_stats_try data w) as [w' [u|e]]; cbn [fst] in H;
    exists more; exact H.
Qed.

(** The induction on a tree of values that reaches the items of a list
    and the values of a dict. *)
Lemma pyobj_tree_ind (P : pyobj -> Prop) :
  P VNone ->
  (forall b, P (VBool b)) ->
  (forall z, P (VInt z)) ->
  (forall s, P (VStr s)) ->
  (forall l, Forall P l -> P (VList l)) ->
  (forall d, Forall (fun kv => P (snd kv)) d -> P (VDict d)) ->
  forall j, P j.
Proof.
  intros HN HB HI HS HL HD.
  fix IH 1. intros [ | b | z | s | l | d ].
  - exact HN.
  - apply HB.
  - apply HI.
  - apply HS.
  - apply HL. induction l as [|j l IHl]; constructor; [apply IH|exact IHl].
  - apply HD. induction d as [|[k j] d IHd]; constructor; [apply IH|exact IHd].
Qed.

Lemma denotes_list (h : list hobj) (v : hval) (js : list pyobj) :
  denotes h v (VList js) <->
  exists l items,
    v = HRef l /\ nth_error h l = Some (HList items) /\
    Forall2 (denotes h) items js.
Proof.
  cbn [denotes].
  assert (H : forall items,
             (fix all (items : list hval) (js : list pyobj) {struct js} : Prop :=
                match js, items with
                | [], [] => True
                | j' :: js', i :: items' => denotes h i j' /\ all items' js'
                | _, _ => False
                end) items js <-> Forall2 (denotes h) items js).
  { induction js as [|j js IH]; intros [|i items]; split; intros H;
      try contradiction; try (inversion H; fail); try constructor.
    - apply H.
    - apply IH, H.
    - inversion H; subst. assumption.
    - inversion H; subst. apply IH. assumption. }
  split; intros (l & items & H1 & H2 & H3); exists l, items;
    (split; [exact H1|]); (split; [exact H2|]); apply H; exact H3.
Qed.

Lemma denotes_dict (h : list hobj) (v : hval) (d : list (string * pyobj)) :
  denotes h v (VDict d) <->
  exists l entries,
    v = HRef l /\ nth_error h l = Some (HDict entries) /\
    Forall2 (entry_denotes h) entries d.
Proof.
  cbn [denotes].
  assert (H : forall entries,
             (fix all (entries : list (string * hval)) (d : list (string * pyobj))
                  {struct d} : Prop :=
                match d, entries with
                | [], [] => True
                | (k', j') :: d', (k, i) :: entries' =>
                    k = k' /\ denotes h i j' /\ all entries' d'
                | _, _ => False
                end) entries d <-> Forall2 (entry_denotes h) entries d).
  { induction d as [|[k' j] d IH]; intros [|[k i] entries]; split; intros H;
      try contradiction; try (inversion H; fail).
    - constructor.
    - exact I.
    - constructor; [split; apply H|apply IH, H].
    - inversion H as [|? ? ? ? [Hk Hd] HF]; subst. cbn in Hk, Hd.
      split; [exact Hk|]. split; [exact Hd|]. apply IH. exact HF. }
  split; intros (l & entries & H1 & H2 & H3); exists l, entries;
    (split; [exact H1|]); (split; [exact H2|]); apply H; exact H3.
Qed.

Lemma nth_error_grows (h more : list hobj) (l : nat) (o : hobj) :
  nth_error h l = Some o -> nth_error (h ++ more) l = Some o.
Proof.
  intros H. rewrite nth_error_app1; [exact H|].
  apply nth_error_Some. rewrite H. discriminate.
Qed.

(** A value stands for the same tree in a store that has grown. *)
Lemma denotes_grows (h more : list hobj) (j : pyobj) :
  forall v, denotes h v j -> denotes (h ++ more) v j.
Proof.
  induction j as [ | b | z | s | js IH | d IH ] using pyobj_tree_ind;
    intros v H; try exact H.
  - apply denotes_list in H. destruct H as (l & items & H1 & H2 & H3).
    apply denotes_list. exists l, items. split; [exact H1|].
    split; [apply nth_error_grows; exact H2|].
    clear H2. revert items H3.
    induction IH as [|j js Hj _ IHjs]; intros items H3; inversion H3; subst;
      constructor; auto.
  - apply denotes_dict in H. destruct H as (l & entries & H1 & H2 & H3).
    apply denotes_dict. exists l, entries. split; [exact H1|].
    split; [apply nth_error_grows; exact H2|].
    clear H2. revert entries H3.
    induction IH as [|kv d Hj _ IHd]; intros entries H3; inversion H3 as [|? ? ? ? [Hk Hd] HF];
      subst; constructor; auto.
    split; [exact Hk|]. apply Hj. exact Hd.
Qed.

Lemma keeping_ret {A : Type} (a : A) : keeping (ret a).
Proof. intros w. reflexivity. Qed.

Lemma keeping_lift {A : Type} (r : result A) : keeping (lift r).
Proof. intros w. reflexivity. Qed.

Lemma keeping_self {A : Type} (f : World -> A) : keeping (self f).
Proof. intros w. reflexivity. Qed.

Lemma keeping_reading {A : Type} (f : list hobj -> result A) : keeping (reading f).
Proof. intros w. reflexivity. Qed.

Lemma keeping_alloc (o : hobj) : keeping (alloc o).
Proof. intros w. reflexivity. Qed.

Lemma keeping_on_me (f : RState -> RState) :
  (forall s, r_user_data (f s) = r_user_data s) -> keeping (assign (on_me f)).
Proof. intros H w. cbn. apply H. Qed.

Lemma keeping_bind {A B : Type} (m : M World A) (k : A -> M World B) :
  keeping m -> (forall a, keeping (k a)) -> keeping (bind m k).
Proof.
  intros Hm Hk w. unfold bind. specialize (Hm w).
  destruct (m w) as [w1 [a|e]]; cbn [fst] in *; [|exact Hm].
  rewrite (Hk a w1). exact Hm.
Qed.

Ltac keep :=
  repeat first
    [ apply keeping_ret | apply keeping_lift | apply keeping_self
    | apply keeping_reading | apply keeping_alloc
    | apply keeping_on_me; intros ?; reflexivity
    | apply keeping_bind; [|intros ?]
    | match goal with
      | |- keeping (if ?c then _ else _) => destruct c
      end ].

(** After its first assignment the body leaves [self.user_data] alone,
    and so does the handler. *)
Lemma ref_process_stats_user_data (data : hval) (w : World) :
  r_user_data (me (ref_process_stats data w)) = data.
Proof.
  unfold ref_process_stats, ref_process_stats_try.
  match goal with
  | |- context [bind (assign (on_me (put_user_data data))) ?k] =>
      assert (Hk : keeping (k tt)) by keep;
      specialize (Hk (on_me (put_user_data data) w));
      change (bind (assign (on_me (put_user_data data))) k w)
        with (k tt (on_me (put_user_data data) w));
      destruct (k tt (on_me (put_user_data data) w)) as [w' [u|e]];
      cbn [fst] in Hk
  end.
  - exact Hk.
  - cbn. exact Hk.
Qed.

(** C9. The aggregation, run on the record as a graph of mutable objects,
    only allocates: every object of the store before the run is the same
    object after it, whether the run ends normally or degrades.  So the
    record stands for the same tree of values after the run as before it
    (its username, followersCount, badges and posts, and every field of
    every post), and [self.user_data] is the reference it was given. *)
Theorem input_not_mutated (data : hval) (w : World) :
  let w' := ref_process_stats data w in
  (forall l o, nth_error (heap w) l = Some o -> nth_error (heap w') l = Some o) /\
  (forall j, denotes (heap w) data j -> denotes (heap w') data j) /\
  r_user_data (me w') = data.
Proof.
  intros w'. subst w'.
  destruct (ref_process_stats_grows data w) as [more Hm].
  split; [|split].
  - intros l o H. rewrite Hm. apply nth_error_grows. exact H.
  - intros j H. rewrite Hm. apply denotes_grows. exact H.
  - apply ref_process_stats_user_data.
Qed.

(** ** The aggregation on the graph and on the tree *)

Lemma sim_cases {A B : Type} (R : A -> B -> Prop) (ra : result A) (rb : result B) :
  sim R ra rb ->
  (exists a b, ra = Ok a /\ rb = Ok b /\ R a b) \/
  (exists e, ra = Raise e /\ rb = Raise e).
Proof.
  destruct ra as [a|e], rb as [b|e']; cbn; intros H; try contradiction.
  - left. eauto.
  - right. subst. eauto.
Qed.

Lemma lookup_sim (h : list hobj) (key : string)
      (entries : list (string * hval)) (d : list (string * pyobj)) :
  Forall2 (entry_denotes h) entries d ->
  match lookup key entries, lookup key d with
  | Some i, Some j => denotes h i j
  | None, None => True
  | _, _ => False
  end.
Proof.
  induction 1 as [|[k i] [k' j] entries d [Hk Hd] _ IH]; cbn [lookup]; [exact I|].
  cbn in Hk, Hd. subst k'. destruct (String.eqb k key); [exact Hd|exact IH].
Qed.

Lemma ref_get_sim (h : list hobj) (v : hval) (j : pyobj) (key : string)
      (dv : hval) (dj : pyobj) :
  denotes h v j -> denotes h dv dj ->
  sim (denotes h) (ref_get h v key dv) (py_get j key dj).
Proof.
  intros Hv Hd. destruct j as [ | b | z | s | js | d ].
  1-4: cbn in Hv; subst v; reflexivity.
  - apply denotes_list in Hv. destruct Hv as (l & items & -> & Hl & _).
    cbn. rewrite Hl. reflexivity.
  - apply denotes_dict in Hv. destruct Hv as (l & entries & -> & Hl & HF).
    cbn [ref_get py_get sim]. rewrite Hl.
    pose proof (lookup_sim h key entries d HF) as H.
    destruct (lookup key entries), (lookup key d); try contradiction; assumption.
Qed.

Lemma ref_getitem_sim (h : list hobj) (v : hval) (j : pyobj) (key : string) :
  denotes h v j ->
  sim (denotes h) (ref_getitem h v key) (py_getitem j key).
Proof.
  intros Hv. destruct j as [ | b | z | s | js | d ].
  1-4: cbn in Hv; subst v; reflexivity.
  - apply denotes_list in Hv. destruct Hv as (l & items & -> & Hl & _).
    cbn. rewrite Hl. reflexivity.
  - apply denotes_dict in Hv. destruct Hv as (l & entries & -> & Hl & HF).
    cbn [ref_getitem py_getitem]. rewrite Hl.
    pose proof (lookup_sim h key entries d HF) as H.
    destruct (lookup key entries), (lookup key d); try contradiction;
      [exact H|reflexivity].
Qed.

Lemma ref_truthy_sim (h : list hobj) (v : hval) (j : pyobj) :
  denotes h v j -> ref_truthy h v = truthy j.
Proof.
  intros Hv. destruct j as [ | b | z | s | js | d ].
  1-4: cbn in Hv; subst v; reflexivity.
  - apply denotes_list in Hv. destruct Hv as (l & items & -> & Hl & HF).
    cbn. rewrite Hl. destruct HF; reflexivity.
  - apply denotes_dict in Hv. destruct Hv as (l & entries & -> & Hl & HF).
    cbn. rewrite Hl. destruct HF; reflexivity.
Qed.

Lemma ref_chars_sim (h : list hobj) (s : string) :
  Forall2 (denotes h) (ref_chars s) (chars s).
Proof. induction s; cbn; constructor; [reflexivity|assumption]. Qed.

Lemma ref_keys_sim (h : list hobj) (entries : list (string * hval))
      (d : list (string * pyobj)) :
  Forall2 (entry_denotes h) entries d ->
  forall seen, Forall2 (denotes h) (ref_keys entries seen) (dict_keys d seen).
Proof.
  induction 1 as [|[k i] [k' j] entries d [Hk Hd] _ IH]; intros seen;
    cbn [ref_keys dict_keys]; [constructor|].
  cbn in Hk. subst k'.
  destruct (existsb (String.eqb k) seen); [apply IH|].
  constructor; [reflexivity|apply IH].
Qed.

Lemma ref_iter_sim (h : list hobj) (v : hval) (j : pyobj) :
  denotes h v j ->
  sim (Forall2 (denotes h)) (ref_iter h v) (py_iter j).
Proof.
  intros Hv. destruct j as [ | b | z | s | js | d ].
  1-3: cbn in Hv; subst v; reflexivity.
  - cbn in Hv. subst v. cbn. apply ref_chars_sim.
  - apply denotes_list in Hv. destruct Hv as (l & items & -> & Hl & HF).
    cbn. rewrite Hl. exact HF.
  - apply denotes_dict in Hv. destruct Hv as (l & entries & -> & Hl & HF).
    cbn. rewrite Hl. apply ref_keys_sim. exact HF.
Qed.

Lemma ref_len_sim (h : list hobj) (v : hval) (j : pyobj) :
  denotes h v j -> ref_len h v = py_len j.
Proof.
  intros Hv. destruct j as [ | b | z | s | js | d ].
  1-4: cbn in Hv; subst v; reflexivity.
  - apply denotes_list in Hv. destruct Hv as (l & items & -> & Hl & HF).
    cbn. rewrite Hl. rewrite (Forall2_length HF). reflexivity.
  - apply denotes_dict in Hv. destruct Hv as (l & entries & -> & Hl & HF).
    cbn. rewrite Hl.
    rewrite (Forall2_length (ref_keys_sim h entries d HF [])). reflexivity.
Qed.

Lemma ref_add_sim (h : list hobj) (acc : Z) (v : hval) (j : pyobj) :
  denotes h v j -> ref_add acc v = py_add acc j.
Proof.
  intros Hv. destruct j as [ | b | z | s | js | d ].
  1-4: cbn in Hv; subst v; reflexivity.
  - apply denotes_list in Hv. destruct Hv as (l & items & -> & _). reflexivity.
  - apply denotes_dict in Hv. destruct Hv as (l & entries & -> & _). reflexivity.
Qed.

Lemma ref_replace_sim (h : list hobj) (v : hval) (j : pyobj) :
  denotes h v j -> ref_replace_Z v = py_replace_Z j.
Proof.
  intros Hv. destruct j as [ | b | z | s | js | d ].
  1-4: cbn in Hv; subst v; reflexivity.
  - apply denotes_list in Hv. destruct Hv as (l & items & -> & _). reflexivity.
  - apply denotes_dict in Hv. destruct Hv as (l & entries & -> & _). reflexivity.
Qed.

Lemma ref_in_2024_sim (h : list hobj) (v : hval) (j : pyobj) :
  denotes h v j -> ref_in_2024 h v = in_2024 j.
Proof.
  intros Hv. unfold ref_in_2024, in_2024.
  destruct (sim_cases _ _ _ (ref_get_sim h v j "publishedAt" HNone VNone Hv eq_refl))
    as [(a & b & -> & -> & Hab)|(e & -> & ->)]; cbn [rbind]; [|reflexivity].
  rewrite (ref_truthy_sim h a b Hab). destruct (truthy b); [|reflexivity].
  destruct (sim_cases _ _ _ (ref_getitem_sim h v j "publishedAt" Hv))
    as [(a' & b' & -> & -> & Hab')|(e & -> & ->)]; cbn [rbind]; [|reflexivity].
  rewrite (ref_replace_sim h a' b' Hab'). reflexivity.
Qed.

Lemma comprehension_sim (h : list hobj) (items : list hval) (js : list pyobj) :
  Forall2 (denotes h) items js ->
  sim (Forall2 (denotes h))
      (comprehension (ref_in_2024 h) items) (comprehension in_2024 js).
Proof.
  induction 1 as [|i j items js Hij _ IH]; cbn [comprehension]; [constructor|].
  rewrite (ref_in_2024_sim h i j Hij).
  destruct (in_2024 j) as [keep|e]; cbn [rbind]; [|reflexivity].
  destruct (sim_cases _ _ _ IH) as [(a & b & -> & -> & Hab)|(e & -> & ->)];
    cbn [rbind sim]; [|reflexivity].
  destruct keep; [constructor|]; assumption.
Qed.

Lemma ref_sum_field_sim (h : list hobj) (key : string)
      (items : list hval) (js : list pyobj) :
  Forall2 (denotes h) items js ->
  ref_sum_field h key items = sum_field key js.
Proof.
  unfold ref_sum_field, sum_field. generalize (Ok 0 : result Z).
  intros acc H. revert acc.
  induction H as [|i j items js Hij _ IH]; intros acc; cbn [fold_left];
    [reflexivity|].
  rewrite IH. f_equal. destruct acc as [a|e]; cbn [rbind]; [|reflexivity].
  destruct (sim_cases _ _ _ (ref_get_sim h i j key (HInt 0) (VInt 0) Hij eq_refl))
    as [(x & y & -> & -> & Hxy)|(e & -> & ->)]; cbn [rbind]; [|reflexivity].
  apply ref_add_sim with (h := h). exact Hxy.
Qed.

Lemma Forall2_denotes_grows (h more : list hobj) (items : list hval)
      (js : list pyobj) :
  Forall2 (denotes h) items js -> Forall2 (denotes (h ++ more)) items js.
Proof.
  induction 1; constructor; [apply denotes_grows|]; assumption.
Qed.

Lemma ref_str_sim (h : list hobj) (v : hval) (j : pyobj) :
  (forall h v j, denotes h v j -> ref_repr h v = repr j) ->
  denotes h v j -> ref_str h v = py_str j.
Proof.
  intros Hrepr Hv. destruct j as [ | b | z | s | js | d ].
  1-4: cbn in Hv; subst v; reflexivity.
  - pose proof Hv as Hv'. apply denotes_list in Hv'.
    destruct Hv' as (l & items & -> & _). cbn. apply Hrepr. exact Hv.
  - pose proof Hv as Hv'. apply denotes_dict in Hv'.
    destruct Hv' as (l & entries & -> & _). cbn. apply Hrepr. exact Hv.
Qed.

Lemma denotes_fresh_list (h : list hobj) (items : list hval) (js : list pyobj) :
  Forall2 (denotes h) items js ->
  denotes (h ++ [HList items]) (HRef (List.length h)) (VList js).
Proof.
  intros H. apply denotes_list. exists (List.length h), items.
  split; [reflexivity|]. split.
  - rewrite nth_error_app2 by lia. rewrite Nat.sub_diag. reflexivity.
  - apply Forall2_denotes_grows. exact H.
Qed.

Lemma denotes_fresh_dict (h : list hobj) :
  denotes (h ++ [HDict []]) (HRef (List.length h)) (VDict []).
Proof.
  apply denotes_dict. exists (List.length h), [].
  split; [reflexivity|]. split; [|constructor].
  rewrite nth_error_app2 by lia. rewrite Nat.sub_diag. reflexivity.
Qed.

Ltac world :=
  cbn [heap me on_me fst snd put_user_data put_stats_items
       put_user_display_name put_posts_2024 put_post_count
       r_user_data r_stats_items r_user_display_name r_posts_2024 r_post_count].

Lemma ref_try_refines (data : hval) (w : World) (j : pyobj) :
  (forall h v j, denotes h v j -> ref_repr h v = repr j) ->
  denotes (heap w) data j ->
  match analyse j with
  | Ok a =>
      exists w',
        ref_process_stats_try data w = (w', Ok tt) /\
        r_stats_items (me w') =
          six_stats (count a) (total_views a) (total_reactions a)
                    (total_followers a) (total_badges a) (average a) /\
        r_post_count (me w') = count a /\
        denotes (heap w') (r_posts_2024 (me w')) (VList (kept a)) /\
        denotes (heap w') (r_user_display_name (me w')) (display_name a)
  | Raise e => exists w', ref_process_stats_try data w = (w', Raise e)
  end.
Proof.
  intros Hrepr Hd.
  unfold analyse, all_posts, badge_total, average_text, ref_process_stats_try.
  unfold bind, assign, alloc, reading, self, lift, ret. world.
  set (h1 := (heap w ++ [HDict []])%list).
  assert (Hd1 : denotes h1 data j) by (apply denotes_grows; exact Hd).
  destruct (sim_cases _ _ _
              (ref_get_sim h1 data j "posts" (HRef (List.length (heap w))) (VDict [])
                 Hd1 (denotes_fresh_dict (heap w))))
    as [(posts & pj & -> & -> & Hp)|(e & -> & ->)]; cbn [rbind];
    [|eexists; reflexivity].
  set (h2 := (h1 ++ [HList []])%list).
  assert (Hd2 : denotes h2 data j) by (apply denotes_grows; exact Hd1).
  assert (Hp2 : denotes h2 posts pj) by (apply denotes_grows; exact Hp).
  destruct (sim_cases _ _ _
              (ref_get_sim h2 posts pj "nodes" (HRef (List.length h1)) (VList [])
                 Hp2 (denotes_fresh_list h1 [] [] (Forall2_nil _))))
    as [(nodes & nj & -> & -> & Hn)|(e & -> & ->)]; cbn [rbind];
    [|eexists; reflexivity].
  destruct (sim_cases _ _ _ (ref_iter_sim h2 nodes nj Hn))
    as [(items & js & -> & -> & Hi)|(e & -> & ->)]; cbn [rbind];
    [|eexists; reflexivity].
  destruct (sim_cases _ _ _ (comprehension_sim h2 items js Hi))
    as [(kept & kj & -> & -> & Hk)|(e & -> & ->)]; cbn [rbind];
    [|eexists; reflexivity].
  set (h3 := (h2 ++ [HList kept])%list).
  assert (Hd3 : denotes h3 data j) by (apply denotes_grows; exact Hd2).
  assert (Hkl : denotes h3 (HRef (List.length h2)) (VList kj))
    by (apply denotes_fresh_list; exact Hk).
  assert (Hk3 : Forall2 (denotes h3) kept kj)
    by (apply Forall2_denotes_grows; exact Hk).
  rewrite (ref_len_sim h3 _ _ Hkl). cbn [py_len]. world.
  assert (Hit : ref_iter h3 (HRef (List.length h2)) = Ok kept).
  { unfold ref_iter, h3. rewrite nth_error_app2 by lia. rewrite Nat.sub_diag.
    reflexivity. }
  rewrite Hit.
  rewrite (ref_sum_field_sim h3 "views" kept kj Hk3).
  destruct (sum_field "views" kj) as [tv|e]; cbn [rbind]; [|eexists; reflexivity].
  rewrite (ref_sum_field_sim h3 "reactionCount" kept kj Hk3).
  destruct (sum_field "reactionCount" kj) as [tr|e]; cbn [rbind];
    [|eexists; reflexivity].
  destruct (sim_cases _ _ _
              (ref_get_sim h3 data j "followersCount" (HInt 0) (VInt 0) Hd3 eq_refl))
    as [(fv & fj & -> & -> & Hf)|(e & -> & ->)]; cbn [rbind];
    [|eexists; reflexivity].
  destruct (sim_cases _ _ _
              (ref_get_sim h3 data j "badges" HNone VNone Hd3 eq_refl))
    as [(bv & bj & -> & -> & Hb)|(e & -> & ->)]; cbn [rbind];
    [|eexists; reflexivity].
  rewrite (ref_truthy_sim h3 bv bj Hb).
  assert (Htail :
    forall hf nb,
      denotes hf data j -> denotes hf fv fj ->
      denotes hf (HRef (List.length h2)) (VList kj) ->
      match
        (let? name := py_get j "username" (VStr "") in
         let? average0 :=
           (if 0 <? Z.of_nat (Datatypes.length kj)
            then fmt_div tr (Z.of_nat (Datatypes.length kj)) else Ok "0") in
         Ok (mksummary kj tv tr fj nb name average0))
      with
      | Ok a =>
          exists w',
            match ref_get hf data "username" (HStr "") with
            | Ok a1 =>
                let (s'0, r0) :=
                  (if 0 <? Z.of_nat (Datatypes.length kj)
                   then fun s : World => (s, fmt_div tr (r_post_count (me s)))
                   else fun s : World => (s, Ok "0"))
                    (on_me (put_user_display_name a1)
                       (mkWorld hf
                          (put_post_count (Z.of_nat (Datatypes.length kj))
                             (put_posts_2024 (HRef (Datatypes.length h2))
                                (put_user_data data (me w)))))) in
                match r0 with
                | Ok a2 =>
                    (on_me
                       (put_stats_items
                          [ mkstat "Total Articles"
                              (str_int (Z.of_nat (Datatypes.length kj)))
                              "Articles published in 2024";
                            mkstat "Total Views" (format_commas tv)
                              "Content views in 2024";
                            mkstat "Total Reactions" (str_int tr) "Reactions in 2024";
                            mkstat "Followers" (ref_str (heap s'0) fv)
                              "Total followers";
                            mkstat "Badges Earned" (str_int nb)
                              "Total badges collected";
                            mkstat "Avg. Reactions" a2 "Average reactions per post" ])
                       s'0, Ok tt)
                | Raise e => (s'0, Raise e)
                end
            | Raise e =>
                (mkWorld hf
                   (put_post_count (Z.of_nat (Datatypes.length kj))
                      (put_posts_2024 (HRef (Datatypes.length h2))
                         (put_user_data data (me w)))), Raise e)
            end = (w', Ok tt) /\
            r_stats_items (me w') =
              six_stats (count a) (total_views a) (total_reactions a)
                        (total_followers a) (total_badges a) (average a) /\
            r_post_count (me w') = count a /\
            denotes (heap w') (r_posts_2024 (me w')) (VList (App.kept a)) /\
            denotes (heap w') (r_user_display_name (me w')) (display_name a)
      | Raise e =>
          exists w',
            match ref_get hf data "username" (HStr "") with
            | Ok a1 =>
                let (s'0, r0) :=
                  (if 0 <? Z.of_nat (Datatypes.length kj)
                   then fun s : World => (s, fmt_div tr (r_post_count (me s)))
                   else fun s : World => (s, Ok "0"))
                    (on_me (put_user_display_name a1)
                       (mkWorld hf
                          (put_post_count (Z.of_nat (Datatypes.length kj))
                             (put_posts_2024 (HRef (Datatypes.length h2))
                                (put_user_data data (me w)))))) in
                match r0 with
                | Ok a2 =>
                    (on_me
                       (put_stats_items
                          [ mkstat "Total Articles"
                              (str_int (Z.of_nat (Datatypes.length kj)))
                              "Articles published in 2024";
                            mkstat "Total Views" (format_commas tv)
                              "Content views in 2024";
                            mkstat "Total Reactions" (str_int tr) "Reactions in 2024";
                            mkstat "Followers" (ref_str (heap s'0) fv)
                              "Total followers";
                            mkstat "Badges Earned" (str_int nb)
                              "Total badges collected";
                            mkstat "Avg. Reactions" a2 "Average reactions per post" ])
                       s'0, Ok tt)
                | Raise e => (s'0, Raise e)
                end
            | Raise e =>
                (mkWorld hf
                   (put_post_count (Z.of_nat (Datatypes.length kj))
                      (put_posts_2024 (HRef (Datatypes.length h2))
                         (put_user_data data (me w)))), Raise e)
            end = (w', Raise e)
      end).
  { intros hf nb Hdf Hff Hkf.
    destruct (sim_cases _ _ _
                (ref_get_sim hf data j "username" (HStr "") (VStr "") Hdf eq_refl))
      as [(nv & nj' & -> & -> & Hnm)|(e & -> & ->)]; cbn [rbind];
      [|eexists; reflexivity].
    destruct (0 <? Z.of_nat (Datatypes.length kj)); world.
    - destruct (fmt_div tr (Z.of_nat (Datatypes.length kj))) as [av|e];
        cbn [rbind]; [|eexists; reflexivity].
      eexists. split; [reflexivity|]. world.
      rewrite (ref_str_sim hf fv fj Hrepr Hff).
      repeat split; assumption.
    - cbn [rbind]. eexists. split; [reflexivity|]. world.
      rewrite (ref_str_sim hf fv fj Hrepr Hff).
      repeat split; assumption. }
  destruct (truthy bj); world.
  - set (h4 := (h3 ++ [HList []])%list).
    assert (Hd4 : denotes h4 data j) by (apply denotes_grows; exact Hd3).
    destruct (sim_cases _ _ _
                (ref_get_sim h4 data j "badges" (HRef (List.length h3)) (VList [])
                   Hd4 (denotes_fresh_list h3 [] [] (Forall2_nil _))))
      as [(lv & lj & -> & -> & Hl)|(e & -> & ->)]; cbn [rbind];
      [|eexists; reflexivity].
    rewrite (ref_len_sim h4 lv lj Hl).
    destruct (py_len lj) as [nb|e]; cbn [rbind]; [|eexists; reflexivity].
    world.
    apply (Htail h4 nb Hd4); apply denotes_grows; assumption.
  - cbn [rbind]. apply (Htail h3 0 Hd3); assumption.
Qed.

(** The aggregation on the graph computes what the aggregation on the
    tree computes: the same metrics and the same post count, and after a
    run that ends normally [self.posts_2024] is a new list that stands
    for the retained posts. *)
Theorem ref_process_stats_refines (data : hval) (w : World) (j : pyobj) (s : State) :
  (forall h v j, denotes h v j -> ref_repr h v = repr j) ->
  denotes (heap w) data j ->
  let w' := ref_process_stats data w in
  let s' := process_stats j s in
  r_stats_items (me w') = stats_items s' /\
  r_post_count (me w') = post_count s' /\
  (succeeds j s ->
   denotes (heap w') (r_posts_2024 (me w')) (VList (posts_2024 s')) /\
   denotes (heap w') (r_user_display_name (me w')) (user_display_name s')).
Proof.
  intros Hrepr Hd w' s'. subst w' s'.
  pose proof (ref_try_refines data w j Hrepr Hd) as H.
  rewrite succeeds_analyse. unfold ref_process_stats.
  destruct (analyse j) as [a|e] eqn:Ha.
  - destruct H as (w' & -> & H1 & H2 & H3 & H4).
    rewrite (process_stats_finished j s a Ha). cbn [finished stats_items post_count
      posts_2024 user_display_name].
    repeat split; assumption.
  - destruct H as (w' & ->).
    destruct (process_stats_degraded j s e Ha) as (H1 & H2 & _).
    rewrite H1, H2. split; [reflexivity|]. split; [reflexivity|].
    intros [a Hx]. discriminate.
Qed.

(** * Further properties *)

(** ** The guards and the handlers of the submit workflow *)

Lemma handle_submit_no_username (w : Session) :
  username (app w) = "" ->
  handle_submit w =
  (on_app (set_error_message (Some "Please enter a username")) w, Ok None).
Proof.
  intros Hu. unfold handle_submit, bind, self, set_error, assign, ret.
  rewrite Hu. reflexivity.
Qed.

Lemma handle_submit_no_token (w : Session) :
  username (app w) <> "" -> no_token = true ->
  handle_submit w =
  (on_app (set_error_message
             (Some "Access token not configured. Please check your .env file contains ACCESS_TOKEN"))
          w, Ok None).
Proof.
  intros Hu Ht. unfold handle_submit, bind, self, set_error, assign, ret.
  apply String.eqb_neq in Hu. rewrite Hu, Ht. reflexivity.
Qed.

Lemma handle_submit_except_ok (e : exn) (w : Session) :
  exists m,
    handle_submit_except e w = (on_app (set_error_message (Some m)) w, Ok None).
Proof.
  unfold handle_submit_except, bind, set_error, assign, ret.
  destruct e; try (eexists; reflexivity).
  destruct (status =? 401); [eexists; reflexivity|].
  destruct (status =? 403); eexists; reflexivity.
Qed.

Lemma process_stats_frame (data : pyobj) (s : State) :
  username (process_stats data s) = username s /\
  is_loading (process_stats data s) = is_loading s /\
  error_message (process_stats data s) = error_message s /\
  user_data (process_stats data s) = data.
Proof.
  destruct (analyse data) as [a|e] eqn:Ha.
  - rewrite (process_stats_finished data s a Ha). repeat split.
  - destruct (process_stats_degraded data s e Ha) as (_ & _ & H3 & H4 & H5 & H6).
    repeat split; assumption.
Qed.

(** X1. Without a username the method shows "Please enter a username";
    with a username but without a token (unset or empty) it shows the
    message of the missing token.  In both cases it returns at once:
    nothing is sent, the loading flag and the statistics are as they
    were. *)
Theorem guards_block (w : Session) :
  (username (app w) = "" ->
   handle_submit w =
   (on_app (set_error_message (Some "Please enter a username")) w, Ok None)) /\
  (username (app w) <> "" -> no_token = true ->
   handle_submit w =
   (on_app (set_error_message
              (Some "Access token not configured. Please check your .env file contains ACCESS_TOKEN"))
           w, Ok None)) /\
  (username (app w) = "" \/ no_token = true ->
   sent (fst (handle_submit w)) = sent w /\
   is_loading (app (fst (handle_submit w))) = is_loading (app w) /\
   stats_items (app (fst (handle_submit w))) = stats_items (app w) /\
   post_count (app (fst (handle_submit w))) = post_count (app w)).
Proof.
  split; [apply handle_submit_no_username|].
  split; [apply handle_submit_no_token|].
  intros H. destruct (string_dec (username (app w)) "") as [Hu|Hu].
  - rewrite (handle_submit_no_username w Hu). repeat split.
  - destruct H as [H|H]; [contradiction|].
    rewrite (handle_submit_no_token w Hu H). repeat split.
Qed.

(** X2. No exception leaves [handle_submit]: whatever the network
    replies and whatever the body of the response holds, the method
    returns normally, and once the guards are passed it ends with the
    loading flag off. *)
Theorem submit_never_raises (w : Session) :
  (exists v, snd (handle_submit w) = Ok v) /\
  (guards_pass w -> is_loading (app (fst (handle_submit w))) = false).
Proof.
  destruct (string_dec (username (app w)) "") as [Hu|Hu].
  { rewrite (handle_submit_no_username w Hu). split; [eexists; reflexivity|].
    intros [Hg _]. contradiction. }
  destruct no_token eqn:Ht.
  { rewrite (handle_submit_no_token w Hu Ht).
    split; [eexists; reflexivity|]. intros [_ Hg]. rewrite Ht in Hg. discriminate. }
  assert (Hg : guards_pass w) by (split; assumption).
  rewrite (handle_submit_guarded w Hg). unfold try_finally, try_except, assign.
  destruct (handle_submit_try (started w)) as [w1 [v|e]].
  - split; [eexists; reflexivity|]. intros _. reflexivity.
  - destruct (handle_submit_except_ok e w1) as [m ->].
    split; [eexists; reflexivity|]. intros _. reflexivity.
Qed.

Lemma handle_document_outcome (data : pyobj) (w : Session) :
  error_message (app w) = None ->
  match handle_document data w with
  | (w', Ok (Some p)) => p = "/stats" /\ error_message (app w') = None
  | (w', Ok None) => exists m, error_message (app w') = Some m
  | (w', Raise e) => error_message (app w') = None
  end.
Proof.
  intros Hn. unfold handle_document, bind, lift, set_error, assign, ret.
  repeat match goal with
    | |- context [match ?x with _ => _ end] =>
        lazymatch x with
        | context [match _ with _ => _ end] => fail
        | _ => destruct x eqn:?
        end
    end; cbn [app on_app set_error_message error_message]; eauto.
  all: try (split; [reflexivity|]).
  all: try match goal with
         | |- context [process_stats ?u ?s] =>
             destruct (process_stats_frame u s) as (_ & _ & -> & _); exact Hn
         end.
Qed.

Lemma try_json_error (w : Session) (resp : response) (e : exn) :
  network w (List.length (sent w)) = Responded resp ->
  200 <= status_code resp <= 299 ->
  json resp = Raise e ->
  handle_submit_try (started w) = (posted w, Raise e).
Proof.
  intros Hn Hs Hj.
  unfold handle_submit_try.
  unfold bind at 1. unfold self at 1. unfold bind at 1.
  unfold client_post at 1. session. rewrite Hn.
  unfold bind at 1. unfold lift at 1. unfold raise_for_status.
  assert (Hok : (200 <=? status_code resp) && (status_code resp <=? 299) = true).
  { apply andb_true_iff. split; apply Z.leb_le; lia. }
  rewrite Hok.
  unfold bind at 1. unfold lift at 1. rewrite Hj. reflexivity.
Qed.

(** The body of the [try] either raises before it has a document, or
    handles the document the response decodes to. *)
Lemma handle_submit_try_cases (w : Session) :
  (exists e, handle_submit_try (started w) = (posted w, Raise e)) \/
  (exists data, handle_submit_try (started w) = handle_document data (posted w)).
Proof.
  destruct (network w (Datatypes.length (sent w))) as [resp|e] eqn:Hn.
  - destruct ((200 <=? status_code resp) && (status_code resp <=? 299)) eqn:Hs.
    + apply andb_true_iff in Hs. destruct Hs as [H1 H2].
      apply Z.leb_le in H1. apply Z.leb_le in H2.
      destruct (json resp) as [data|e] eqn:Hj.
      * right. exists data. apply (try_decoded w resp data Hn); [lia|exact Hj].
      * left. exists e. apply (try_json_error w resp e Hn); [lia|exact Hj].
    + left. eexists. apply (try_status_error w resp Hn Hs).
  - left. exists e. apply try_transport_failure. exact Hn.
Qed.

(** X3. A run of [handle_submit] ends in exactly one of two ways: it
    redirects, always to "/stats", and then no error message is shown,
    whatever message was shown before; or it does not redirect, and then
    it shows an error message. *)
Theorem redirect_or_message (w : Session) :
  (forall p, snd (handle_submit w) = Ok (Some p) ->
             p = "/stats" /\ guards_pass w /\
             error_message (app (fst (handle_submit w))) = None) /\
  (snd (handle_submit w) = Ok None ->
   exists m, error_message (app (fst (handle_submit w))) = Some m).
Proof.
  destruct (string_dec (username (app w)) "") as [Hu|Hu].
  { rewrite (handle_submit_no_username w Hu). cbn.
    split; [intros p H; discriminate|eauto]. }
  destruct no_token eqn:Ht.
  { rewrite (handle_submit_no_token w Hu Ht). cbn.
    split; [intros p H; discriminate|eauto]. }
  assert (Hg : guards_pass w) by (split; assumption).
  rewrite (handle_submit_guarded w Hg). unfold try_finally, try_except, assign.
  destruct (handle_submit_try_cases w) as [[e He]|[data Hd]].
  - rewrite He. destruct (handle_submit_except_ok e (posted w)) as [m ->]. cbn.
    split; [intros p H; discriminate|eauto].
  - rewrite Hd.
    pose proof (handle_document_outcome data (posted w) eq_refl) as Ho.
    destruct (handle_document data (posted w)) as [w1 [[p|]|e]].
    + cbn. split; [|intros H; discriminate].
      intros q H. inversion H; subst q. destruct Ho as [-> Hm].
      repeat split; assumption.
    + cbn. split; [intros q H; discriminate|]. intros _. exact Ho.
    + destruct (handle_submit_except_ok e w1) as [m ->]. cbn.
      split; [intros q H; discriminate|eauto].
Qed.

Lemma handle_submit_user (w : Session) (resp : response)
      (d payload : list (string * pyobj)) (user : pyobj) :
  guards_pass w ->
  network w (List.length (sent w)) = Responded resp ->
  200 <= status_code resp <= 299 ->
  json resp = Ok (VDict d) ->
  lookup "errors" d = None ->
  lookup "data" d = Some (VDict payload) ->
  lookup "user" payload = Some user ->
  truthy user = true ->
  handle_submit w =
  (on_app (set_is_loading false) (on_app (process_stats user) (posted w)),
   Ok (Some "/stats")).
Proof.
  intros Hg Hn Hs Hj He Hp Hu Htr.
  apply (handle_submit_returns w _ _ Hg).
  rewrite (try_decoded w resp (VDict d) Hn Hs Hj).
  unfold handle_document, bind, lift. unfold py_contains. rewrite He.
  unfold py_get, py_getitem. rewrite Hp, Hu, Htr. reflexivity.
Qed.

Lemma handle_submit_unexpected (w : Session) (e : exn) :
  guards_pass w ->
  handle_submit_try (started w) = (posted w, Raise e) ->
  (forall status m, e <> HTTPStatusError status m) ->
  (forall m, e <> RequestError m) ->
  reports w ("An unexpected error occurred: " ++ exn_text e) (handle_submit w).
Proof.
  intros Hg Ht H1 H2. rewrite (handle_submit_raises w e Hg Ht).
  unfold reports.
  destruct e; try (cbn; repeat split; fail).
  - exfalso. apply (H1 status message). reflexivity.
  - exfalso. apply (H2 message). reflexivity.
Qed.

(** X4. A response with a status in 200..299 whose body cannot be handled
    is reported as an unexpected error, with the text of the exception:
    a body that is not JSON, a list of errors that is empty, and a body
    without errors whose data is null.  One request has been sent, the
    loading has ended, and the statistics shown are as they were. *)
Theorem unexpected_errors (w : Session) (resp : response) :
  guards_pass w ->
  network w (List.length (sent w)) = Responded resp ->
  200 <= status_code resp <= 299 ->
  (json resp = Raise JSONDecodeError ->
   reports w ("An unexpected error occurred: " ++ exn_text JSONDecodeError)
           (handle_submit w)) /\
  (forall d, json resp = Ok (VDict d) ->
             lookup "errors" d = Some (VList []) ->
             reports w ("An unexpected error occurred: " ++ exn_text IndexError)
                     (handle_submit w)) /\
  (forall d, json resp = Ok (VDict d) ->
             lookup "errors" d = None ->
             lookup "data" d = Some VNone ->
             reports w ("An unexpected error occurred: " ++ exn_text AttributeError)
                     (handle_submit w)).
Proof.
  intros Hg Hn Hs. split; [|split].
  - intros Hj. apply (handle_submit_unexpected w _ Hg).
    + apply (try_json_error w resp _ Hn Hs Hj).
    + discriminate.
    + discriminate.
  - intros d Hj He. apply (handle_submit_unexpected w _ Hg).
    + rewrite (try_decoded w resp (VDict d) Hn Hs Hj).
      unfold handle_document, bind, lift, py_contains, py_getitem. rewrite He.
      reflexivity.
    + discriminate.
    + discriminate.
  - intros d Hj He Hd. apply (handle_submit_unexpected w _ Hg).
    + rewrite (try_decoded w resp (VDict d) Hn Hs Hj).
      unfold handle_document, bind, lift, py_contains, py_get. rewrite He, Hd.
      reflexivity.
    + discriminate.
    + discriminate.
Qed.

(** X5. When the body has a user that is true in a condition but on which
    the aggregation raises, [handle_submit] still redirects to "/stats":
    no error message is shown, and the state shows no metric and a post
    count of zero for that user. *)
Theorem redirect_with_no_stats (w : Session) (resp : response)
        (d payload : list (string * pyobj)) (user : pyobj) (e : exn) :
  guards_pass w ->
  network w (List.length (sent w)) = Responded resp ->
  200 <= status_code resp <= 299 ->
  json resp = Ok (VDict d) ->
  lookup "errors" d = None ->
  lookup "data" d = Some (VDict payload) ->
  lookup "user" payload = Some user ->
  truthy user = true ->
  snd (process_stats_try user (app (posted w))) = Raise e ->
  snd (handle_submit w) = Ok (Some "/stats") /\
  error_message (app (fst (handle_submit w))) = None /\
  is_loading (app (fst (handle_submit w))) = false /\
  stats_items (app (fst (handle_submit w))) = [] /\
  post_count (app (fst (handle_submit w))) = 0 /\
  user_data (app (fst (handle_submit w))) = user.
Proof.
  intros Hg Hn Hs Hj He Hp Hu Htr Ha. apply raises_analyse in Ha.
  rewrite (handle_submit_user w resp d payload user Hg Hn Hs Hj He Hp Hu Htr).
  cbn [fst snd on_app app set_is_loading error_message is_loading stats_items
       post_count user_data].
  destruct (process_stats_degraded user (app (posted w)) e Ha)
    as (H1 & H2 & H3 & _ & _ & H6).
  repeat split; try assumption.
Qed.

(** ** The state an aggregation leaves *)

(** An exception in the loop, or before it, leaves the body after its
    first assignment only. *)
Lemma process_stats_try_early (data : pyobj) (s : State) (e : exn) :
  (let? items := all_posts data in comprehension in_2024 items) = Raise e ->
  process_stats_try data s = (set_user_data data s, Raise e).
Proof.
  unfold all_posts, process_stats_try, bind, lift, assign, self, ret.
  destruct (py_get data "posts" (VDict [])) as [posts|e1]; cbn [rbind];
    [|intros H; inversion H; reflexivity].
  destruct (py_get posts "nodes" (VList [])) as [nodes|e1]; cbn [rbind];
    [|intros H; inversion H; reflexivity].
  destruct (py_iter nodes) as [items|e1]; cbn [rbind];
    [|intros H; inversion H; reflexivity].
  destruct (comprehension in_2024 items) as [k|e1]; cbn [rbind];
    [discriminate|intros H; inversion H; reflexivity].
Qed.

(** An exception after the loop leaves the list of the retained posts
    assigned. *)
Lemma process_stats_try_late (data : pyobj) (s : State) (items k : list pyobj)
      (e : exn) :
  all_posts data = Ok items ->
  comprehension in_2024 items = Ok k ->
  analyse data = Raise e ->
  exists s', process_stats_try data s = (s', Raise e) /\ posts_2024 s' = k.
Proof.
  intros Hi Hk. unfold analyse. rewrite Hi. cbn [rbind]. rewrite Hk. cbn [rbind].
  revert Hi. unfold all_posts, badge_total, average_text, process_stats_try,
    bind, lift, assign, self, ret.
  destruct (py_get data "posts" (VDict [])) as [posts|e1]; cbn [rbind];
    [|discriminate].
  destruct (py_get posts "nodes" (VList [])) as [nodes|e1]; cbn [rbind];
    [|discriminate].
  intros Hi. rewrite Hi, Hk. fields.
  destruct (sum_field "views" k) as [v|e1]; cbn [rbind];
    [|intros H; inversion H; eexists; split; reflexivity].
  destruct (sum_field "reactionCount" k) as [r|e1]; cbn [rbind];
    [|intros H; inversion H; eexists; split; reflexivity].
  destruct (py_get data "followersCount" (VInt 0)) as [f|e1]; cbn [rbind];
    [|intros H; inversion H; eexists; split; reflexivity].
  destruct (py_get data "badges" VNone) as [b|e1]; cbn [rbind];
    [|intros H; inversion H; eexists; split; reflexivity].
  destruct (truthy b);
    [ destruct (py_get data "badges" (VList [])) as [l|e1]; cbn [rbind];
        [ destruct (py_len l) as [nb|e1]; cbn [rbind];
            [|intros H; inversion H; eexists; split; reflexivity]
        |intros H; inversion H; eexists; split; reflexivity]
    | ].
  all: destruct (py_get data "username" (VStr "")) as [n|e1]; cbn [rbind];
    [|intros H; inversion H; eexists; split; reflexivity].
  all: fields.
  all: destruct (0 <? Z.of_nat (Datatypes.length k)); [|discriminate].
  all: fields.
  all: destruct (fmt_div r (Z.of_nat (Datatypes.length k))) as [a|e1];
    cbn [rbind]; [discriminate|intros H; inversion H; eexists; split; reflexivity].
Qed.

(** X6. A second aggregation replaces what the first has left: the
    metrics and the post count after it are those of the second record
    alone, the record kept is the second, and the username, the loading
    flag and the error message are those from before the first; when the
    second run ends normally the whole state is the one it would leave
    without the first. *)
Theorem aggregation_replaces (first second : pyobj) (s : State) :
  let s12 := process_stats second (process_stats first s) in
  let s2 := process_stats second s in
  stats_items s12 = stats_items s2 /\
  post_count s12 = post_count s2 /\
  user_data s12 = second /\
  username s12 = username s /\
  is_loading s12 = is_loading s /\
  error_message s12 = error_message s /\
  (succeeds second s -> s12 = s2).
Proof.
  intros s12 s2. subst s12 s2.
  destruct (process_stats_frame first s) as (F1 & F2 & F3 & _).
  destruct (process_stats_frame second (process_stats first s)) as (G1 & G2 & G3 & G4).
  rewrite succeeds_analyse.
  destruct (analyse second) as [a|e] eqn:Ha.
  - rewrite (process_stats_finished second _ a Ha).
    rewrite (process_stats_finished second s a Ha).
    unfold finished. rewrite F1, F2, F3. cbn.
    repeat (split; [reflexivity|]). intros _. reflexivity.
  - destruct (process_stats_degraded second (process_stats first s) e Ha)
      as (A1 & A2 & _).
    destruct (process_stats_degraded second s e Ha) as (B1 & B2 & _).
    rewrite A1, A2, B1, B2, G1, G2, G3, G4, F1, F2, F3.
    repeat (split; [reflexivity|]). intros [a Hx]. discriminate.
Qed.

(** X7. The handler resets the metrics and the post count, not
    [posts_2024].  When the loop over the posts raises, or the list of posts
    cannot be taken from the record, [posts_2024] and the display name
    are those of the state before; when a later step raises,
    [posts_2024] is the new list of retained posts while the post count
    is zero. *)
Theorem degraded_keeps_retained_posts (data : pyobj) (s : State) :
  (forall e,
     all_posts data = Raise e \/
     (exists items, all_posts data = Ok items /\
                    comprehension in_2024 items = Raise e) ->
     posts_2024 (process_stats data s) = posts_2024 s /\
     user_display_name (process_stats data s) = user_display_name s /\
     post_count (process_stats data s) = 0) /\
  (forall items k e,
     all_posts data = Ok items ->
     comprehension in_2024 items = Ok k ->
     snd (process_stats_try data s) = Raise e ->
     posts_2024 (process_stats data s) = k /\
     post_count (process_stats data s) = 0 /\
     stats_items (process_stats data s) = []).
Proof.
  split.
  - intros e H.
    assert (He : (let? items := all_posts data in comprehension in_2024 items)
                 = Raise e).
    { destruct H as [-> | (items & -> & H)]; [reflexivity|exact H]. }
    unfold process_stats. rewrite (process_stats_try_early data s e He).
    cbn. repeat split.
  - intros items k e Hi Hk Hr. apply raises_analyse in Hr.
    destruct (process_stats_try_late data s items k e Hi Hk Hr) as (s' & Ht & Hp).
    unfold process_stats. rewrite Ht. cbn. repeat split. exact Hp.
Qed.

Lemma sum_field_raised (key : string) (posts : list pyobj) (e : exn) :
  fold_left
    (fun acc post =>
       let? a := acc in
       let? v := py_get post key (VInt 0) in py_add a v)
    posts (Raise e) = Raise e.
Proof. induction posts as [|p l IH]; cbn [fold_left rbind]; [reflexivity|exact IH]. Qed.

Lemma sum_field_not_summable (key : string) (posts : list pyobj) (p v : pyobj) :
  In p posts ->
  py_get p key (VInt 0) = Ok v ->
  not_summable v ->
  exists e, sum_field key posts = Raise e.
Proof.
  unfold sum_field. generalize (Ok 0 : result Z).
  induction posts as [|q l IH]; intros acc Hin Hg Hv; [contradiction|].
  cbn [fold_left]. destruct Hin as [->|Hin].
  - destruct acc as [a|e]; cbn [rbind].
    + rewrite Hg. cbn [rbind].
      destruct v; try contradiction; cbn [py_add]; eexists; apply sum_field_raised.
    + eexists. apply sum_field_raised.
  - apply IH; assumption.
Qed.

(** X8. A retained post whose views or reactionCount is present but is
    not a number (null, a string, a list, a dict) is not counted as 0: the
    sum raises and the aggregation shows no metric and a post count of
    zero, while [posts_2024] holds the retained posts. *)
Theorem non_number_field_degrades
        (fields : list (string * pyobj)) (nodes k : list pyobj)
        (p v : pyobj) (key : string) (s : State) :
  comprehension in_2024 nodes = Ok k ->
  In p k ->
  key = "views" \/ key = "reactionCount" ->
  py_get p key (VInt 0) = Ok v ->
  not_summable v ->
  let s' := process_stats (with_nodes fields nodes) s in
  stats_items s' = [] /\ post_count s' = 0 /\ posts_2024 s' = k.
Proof.
  intros Hk Hin Hkey Hg Hv s'. subst s'.
  destruct (sum_field_not_summable key k p v Hin Hg Hv) as [e He].
  assert (Ha : exists e', analyse (with_nodes fields nodes) = Raise e').
  { unfold analyse. rewrite all_posts_with_nodes. cbn [rbind]. rewrite Hk.
    cbn [rbind]. destruct Hkey as [-> | ->].
    - rewrite He. cbn [rbind]. eauto.
    - destruct (sum_field "views" k) as [tv|e1]; cbn [rbind]; [|eauto].
      rewrite He. cbn [rbind]. eauto. }
  destruct Ha as [e' Ha].
  destruct (process_stats_degraded _ s e' Ha) as (H1 & H2 & _).
  destruct (process_stats_try_late _ s nodes k e' (all_posts_with_nodes fields nodes)
              Hk Ha) as (s1 & Ht & Hp).
  split; [exact H1|]. split; [exact H2|].
  unfold process_stats. rewrite Ht. cbn. exact Hp.
Qed.

(** X9. A record without posts, or whose posts have no nodes, is not an
    error: the defaults of the two [get] give an empty list, the run ends
    normally with no retained post, and the metrics show 0 articles, 0
    views, 0 reactions and the average "0". *)
Theorem absent_posts_count_zero
        (d : list (string * pyobj)) (s : State) (b : Z) :
  lookup "posts" d = None \/
  (exists pd, lookup "posts" d = Some (VDict pd) /\ lookup "nodes" pd = None) ->
  badge_total (VDict d) = Ok b ->
  let s' := process_stats (VDict d) s in
  succeeds (VDict d) s /\
  posts_2024 s' = [] /\
  post_count s' = 0 /\
  metric "Total Articles" s' = Some "0" /\
  metric "Total Views" s' = Some "0" /\
  metric "Total Reactions" s' = Some "0" /\
  metric "Badges Earned" s' = Some (str_int b) /\
  metric "Avg. Reactions" s' = Some "0".
Proof.
  intros Hp Hb s'. subst s'.
  assert (Hi : all_posts (VDict d) = Ok []).
  { unfold all_posts, py_get.
    destruct Hp as [-> | (pd & -> & Hn)]; cbn [rbind]; [reflexivity|].
    rewrite Hn. reflexivity. }
  assert (Ha : exists f n,
             analyse (VDict d) = Ok (mksummary [] 0 0 f b n "0")).
  { unfold analyse. rewrite Hi. cbn [rbind comprehension sum_field fold_left].
    cbn [py_get rbind]. rewrite Hb. cbn [rbind].
    eexists _, _. reflexivity. }
  destruct Ha as (f & n & Ha).
  split; [apply succeeds_analyse; eauto|].
  rewrite (process_stats_finished _ s _ Ha). repeat split.
Qed.

(** ** The share link *)

Lemma never_quoted_not_percent (c : ascii) :
  never_quoted c = true -> Ascii.eqb c "%" = false.
Proof.
  destruct c as [[] [] [] [] [] [] [] []]; cbv; intros H;
    first [reflexivity | discriminate H].
Qed.

Lemma decode_percent (c : ascii) (t : string) :
  percent_decode (percent c ++ t) = String c (percent_decode t).
Proof. destruct c as [[] [] [] [] [] [] [] []]; reflexivity. Qed.

Lemma percent_chars (c : ascii) : all_chars url_char (percent c) = true.
Proof. destruct c as [[] [] [] [] [] [] [] []]; reflexivity. Qed.

Lemma all_chars_app (p : ascii -> bool) (a b : string) :
  all_chars p (a ++ b) = all_chars p a && all_chars p b.
Proof.
  induction a as [|c a IH]; cbn [String.append all_chars]; [reflexivity|].
  rewrite IH, andb_assoc. reflexivity.
Qed.

Lemma quote_app (a b : string) : quote (a ++ b) = quote a ++ quote b.
Proof.
  induction a as [|c a IH]; cbn [String.append quote]; [reflexivity|].
  rewrite IH. destruct (never_quoted c); [reflexivity|].
  rewrite append_assoc. reflexivity.
Qed.

Lemma decode_quote (s : string) : percent_decode (quote s) = s.
Proof.
  induction s as [|c s IH]; [reflexivity|]. cbn [quote].
  destruct (never_quoted c) eqn:E.
  - cbn [percent_decode]. rewrite (never_quoted_not_percent c E), IH.
    reflexivity.
  - rewrite decode_percent, IH. reflexivity.
Qed.

(** X10. [quote] loses nothing: percent-decoding the quoted text gives
    the text back, for every text; so two texts with the same quoted form
    are the same text.  Quoting a concatenation is concatenating the
    quoted parts. *)
Theorem quote_round_trip :
  (forall s, percent_decode (quote s) = s) /\
  (forall s t, quote s = quote t -> s = t) /\
  (forall s t, quote (s ++ t) = quote s ++ quote t).
Proof.
  split; [exact decode_quote|]. split; [|exact quote_app].
  intros s t Hq. rewrite <- (decode_quote s), <- (decode_quote t), Hq.
  reflexivity.
Qed.

Lemma quote_chars (s : string) : all_chars url_char (quote s) = true.
Proof.
  induction s as [|c s IH]; [reflexivity|]. cbn [quote].
  destruct (never_quoted c) eqn:E.
  - cbn [all_chars]. unfold url_char at 1. rewrite E, IH. reflexivity.
  - rewrite all_chars_app, percent_chars, IH. reflexivity.
Qed.

Lemma all_chars_In (p : ascii -> bool) (s : string) (c : ascii) :
  all_chars p s = true -> In c (list_ascii_of_string s) -> p c = true.
Proof.
  induction s as [|x s IH]; cbn [all_chars list_ascii_of_string]; intros H Hin;
    [contradiction|].
  apply andb_true_iff in H. destruct H as [Hx Hs].
  destruct Hin as [<-|Hin]; [exact Hx|apply IH; assumption].
Qed.

(** X11. [share_stats] leaves the state as it is and redirects to the
    tweet intent with one parameter: the parameter is made of letters,
    digits, [_.-~/] and percent signs only, so that no space, line
    break, [#], [&], [?] or [=] of the tweet text is left in the URL,
    and it percent-decodes to the tweet text. *)
Theorem share_link (s : State) :
  exists parameter,
    share_stats s = (s, Ok (share_prefix ++ parameter)) /\
    percent_decode parameter = tweet_text (stats_items s) /\
    (forall c, In c (list_ascii_of_string parameter) ->
               url_char c = true /\
               c <> " "%char /\ c <> "#"%char /\ c <> "&"%char /\
               c <> "?"%char /\ c <> "="%char /\ c <> ascii_of_nat 10).
Proof.
  exists (quote (tweet_text (stats_items s))).
  split; [reflexivity|]. split; [apply decode_quote|].
  intros c Hin.
  pose proof (all_chars_In url_char _ c (quote_chars _) Hin) as Hc.
  split; [exact Hc|].
  repeat split; intros ->; discriminate Hc.
Qed.

Lemma stats_summary_acc (items : list stat) (acc : list string) :
  fold_left
    (fun summary m =>
       if existsb (String.eqb (title m)) shared_titles
       then List.app summary [title m ++ ": " ++ value m]
       else summary)
    items acc
  = (acc ++ map summary_line (filter is_shared items))%list.
Proof.
  revert acc. induction items as [|m items IH]; intros acc; cbn [fold_left filter map].
  - rewrite app_nil_r. reflexivity.
  - rewrite IH. unfold is_shared at 2.
    destruct (existsb (String.eqb (title m)) shared_titles); [|reflexivity].
    cbn [map]. rewrite <- app_assoc. reflexivity.
Qed.

(** X12. The tweet lists the metrics titled Total Articles, Total Views
    and Total Reactions, and only these, in the order of the state, each
    as "title: value".  After an aggregation that ends normally the list
    is the three counts of that aggregation, joined by " | "; after one
    that degrades it is empty. *)
Theorem share_after_aggregation (data : pyobj) (s : State) :
  (forall items, stats_summary items = map summary_line (filter is_shared items)) /\
  (succeeds data s ->
   exists views reactions,
     sum_field "views" (posts_2024 (process_stats data s)) = Ok views /\
     sum_field "reactionCount" (posts_2024 (process_stats data s)) = Ok reactions /\
     join " | " (stats_summary (stats_items (process_stats data s)))
     = "Total Articles: " ++ str_int (post_count (process_stats data s))
       ++ " | Total Views: " ++ format_commas views
       ++ " | Total Reactions: " ++ str_int reactions) /\
  (forall e, snd (process_stats_try data s) = Raise e ->
             join " | " (stats_summary (stats_items (process_stats data s))) = "").
Proof.
  split; [|split].
  - intros items. unfold stats_summary. rewrite stats_summary_acc. reflexivity.
  - intros Hs. apply succeeds_analyse in Hs. destruct Hs as [a Ha].
    rewrite (process_stats_finished _ s a Ha).
    unfold analyse in Ha.
    destruct (all_posts data) as [items|e]; cbn [rbind] in Ha; [|discriminate].
    destruct (comprehension in_2024 items) as [k|e]; cbn [rbind] in Ha; [|discriminate].
    destruct (sum_field "views" k) as [v|e] eqn:Hv; cbn [rbind] in Ha; [|discriminate].
    destruct (sum_field "reactionCount" k) as [rc|e] eqn:Hrc; cbn [rbind] in Ha;
      [|discriminate].
    destruct (py_get data "followersCount" (VInt 0)) as [f|e]; cbn [rbind] in Ha;
      [|discriminate].
    destruct (badge_total data) as [b|e]; cbn [rbind] in Ha; [|discriminate].
    destruct (py_get data "username" (VStr "")) as [nm|e]; cbn [rbind] in Ha;
      [|discriminate].
    destruct (average_text rc (Z.of_nat (Datatypes.length k))) as [av|e];
      cbn [rbind] in Ha; [|discriminate].
    inversion Ha; subst a; clear Ha.
    exists v, rc. cbn [finished posts_2024 kept post_count count stats_items
                       total_views total_reactions].
    split; [exact Hv|]. split; [exact Hrc|].
    unfold stats_summary, six_stats.
    cbn [fold_left title value existsb shared_titles String.eqb Ascii.eqb Bool.eqb
         orb List.app join].
    rewrite !append_assoc. reflexivity.
  - intros e He. apply raises_analyse in He.
    destruct (process_stats_degraded data s e He) as (-> & _). reflexivity.
Qed.

(** ** The condition of the filter *)

Lemma str_replace_absent (old : ascii) (new s : string) :
  all_chars (fun c => negb (Ascii.eqb c old)) s = true ->
  str_replace old new s = s.
Proof.
  induction s as [|c s IH]; cbn [all_chars str_replace]; [reflexivity|].
  intros H. apply andb_true_iff in H. destruct H as [Hc Hs].
  apply negb_true_iff in Hc. rewrite Hc, (IH Hs). reflexivity.
Qed.

Lemma in_2024_true (p : pyobj) :
  in_2024 p = Ok true -> published_year p 2024.
Proof.
  unfold in_2024, published_year.
  destruct p as [ | b | z | s | l | d ]; cbn [py_get rbind]; try discriminate.
  destruct (lookup "publishedAt" d) as [v|] eqn:Hl; cbn [truthy];
    [|discriminate].
  destruct (truthy v); [|discriminate].
  cbn [py_getitem]. rewrite Hl. cbn [rbind].
  destruct v as [ | b | z | text | l | d' ]; cbn [py_replace_Z rbind];
    try discriminate.
  destruct (fromisoformat (str_replace "Z" "+00:00" text)) as [dt|e] eqn:Hp;
    cbn [rbind]; [|discriminate].
  intros H. injection H as Hy. apply Z.eqb_eq in Hy.
  exists d, text, dt. split; [reflexivity|]. split; [exact Hl|].
  split; [exact Hp|exact Hy].
Qed.

(** X13. A publishedAt without the letter Z goes to the parser as it is
    written: a timestamp with an explicit offset, or with none, is
    retained or dropped by the year the parser reads in that very text,
    and raises when the parser rejects that text. *)
Theorem timestamp_without_Z (d : list (string * pyobj)) (text : string) :
  lookup "publishedAt" d = Some (VStr text) ->
  text <> "" ->
  all_chars (fun c => negb (Ascii.eqb c "Z")) text = true ->
  in_2024 (VDict d) =
  (let? dt := fromisoformat text in Ok (year dt =? 2024)).
Proof.
  intros Hl Hne Hz. unfold in_2024. cbn [py_get rbind]. rewrite Hl.
  cbn [truthy]. apply String.eqb_neq in Hne. rewrite Hne.
  cbn [negb py_getitem]. rewrite Hl. cbn [rbind py_replace_Z].
  rewrite (str_replace_absent _ _ _ Hz). reflexivity.
Qed.

(** X14. A publishedAt that is true in a condition but is not a string
    (a number other than 0, [true], a list or a dict that is not empty)
    passes the guard of the filter and then has no [replace]: it is not
    dropped, the aggregation shows no metric and a post count of zero. *)
Theorem non_string_timestamp_degrades
        (fields : list (string * pyobj)) (nodes : list pyobj)
        (d : list (string * pyobj)) (v : pyobj) (s : State) :
  In (VDict d) nodes ->
  lookup "publishedAt" d = Some v ->
  truthy v = true ->
  (forall text, v <> VStr text) ->
  let s' := process_stats (with_nodes fields nodes) s in
  stats_items s' = [] /\ post_count s' = 0 /\ posts_2024 s' = posts_2024 s.
Proof.
  intros Hin Hl Ht Hv s'. subst s'.
  assert (Hr : in_2024 (VDict d) = Raise AttributeError).
  { unfold in_2024. cbn [py_get rbind]. rewrite Hl, Ht.
    cbn [py_getitem]. rewrite Hl. cbn [rbind].
    destruct v; try reflexivity. exfalso. apply (Hv s0). reflexivity. }
  destruct (comprehension_raise in_2024 nodes _ _ Hin Hr) as [e He].
  assert (Hearly : (let? items := all_posts (with_nodes fields nodes) in
                    comprehension in_2024 items) = Raise e).
  { rewrite all_posts_with_nodes. cbn [rbind]. exact He. }
  unfold process_stats.
  rewrite (process_stats_try_early _ s e Hearly). cbn. repeat split.
Qed.

(** X15. After a run that ends normally the retained posts are the posts
    of the record that the condition accepts, in their order, so that
    the post count is at most the number of posts of the record; and
    every retained post is a dict whose publishedAt is a string the
    parser reads as a date of 2024. *)
Theorem retained_are_2024 (data : pyobj) (s : State) :
  succeeds data s ->
  let s' := process_stats data s in
  exists items,
    all_posts data = Ok items /\
    posts_2024 s' = filter (accepts in_2024) items /\
    post_count s' <= Z.of_nat (List.length items) /\
    (forall p, In p (posts_2024 s') -> In p items /\ published_year p 2024).
Proof.
  intros Hs s'. subst s'. apply succeeds_analyse in Hs. destruct Hs as [a Ha].
  rewrite (process_stats_finished data s a Ha).
  unfold analyse in Ha.
  destruct (all_posts data) as [items|e]; cbn [rbind] in Ha; [|discriminate].
  destruct (comprehension in_2024 items) as [k|e] eqn:Hk; cbn [rbind] in Ha;
    [|discriminate].
  destruct (sum_field "views" k) as [v|e]; cbn [rbind] in Ha; [|discriminate].
  destruct (sum_field "reactionCount" k) as [rc|e]; cbn [rbind] in Ha;
    [|discriminate].
  destruct (py_get data "followersCount" (VInt 0)) as [f|e]; cbn [rbind] in Ha;
    [|discriminate].
  destruct (badge_total data) as [b|e]; cbn [rbind] in Ha; [|discriminate].
  destruct (py_get data "username" (VStr "")) as [nm|e]; cbn [rbind] in Ha;
    [|discriminate].
  destruct (average_text rc (Z.of_nat (Datatypes.length k))) as [av|e];
    cbn [rbind] in Ha; [|discriminate].
  inversion Ha; subst a; clear Ha.
  cbn [finished posts_2024 post_count count kept].
  destruct (comprehension_filter in_2024 items k Hk) as [Hf _].
  exists items. split; [reflexivity|]. split; [exact Hf|].
  split.
  - rewrite Hf. apply Nat2Z.inj_le. apply filter_length_le.
  - intros p Hp. rewrite Hf in Hp. apply filter_In in Hp.
    destruct Hp as [Hin Hacc]. split; [exact Hin|].
    apply in_2024_true. unfold accepts in Hacc.
    destruct (in_2024 p) as [[]|]; [reflexivity|discriminate|discriminate].
Qed.

End App.

(** * Runs on concrete records *)

Example format_commas_million : format_commas 1234567 = "1,234,567".
Proof. reflexivity. Qed.

Example format_commas_small : format_commas 100 = "100".
Proof. reflexivity. Qed.

Example format_commas_pad : format_commas (-1000002) = "-1,000,002".
Proof. reflexivity. Qed.

Example fmt_div_spec : fmt_div 12345 3 = Ok "4115.0".
Proof. vm_compute. reflexivity. Qed.

Example fmt_div_third : fmt_div 10 3 = Ok "3.3".
Proof. vm_compute. reflexivity. Qed.

Example fmt_div_quarter : fmt_div 1 4 = Ok "0.2".
Proof. vm_compute. reflexivity. Qed.

Example fmt_div_three_quarters : fmt_div 3 4 = Ok "0.8".
Proof. vm_compute. reflexivity. Qed.

Example fmt_div_3_20 : fmt_div 3 20 = Ok "0.1".
Proof. vm_compute. reflexivity. Qed.

Example fmt_div_1_20 : fmt_div 1 20 = Ok "0.1".
Proof. vm_compute. reflexivity. Qed.

Example fmt_div_neg : fmt_div (-1) 100 = Ok "-0.0".
Proof. vm_compute. reflexivity. Qed.

Example fmt_div_huge : fmt_div (2 ^ 53 + 1) 2 = Ok "4503599627370496.0".
Proof. vm_compute. reflexivity. Qed.

Example fmt_div_overflow : fmt_div (2 ^ 1024) 1 = Raise OverflowError.
Proof. vm_compute. reflexivity. Qed.

Example iso_parse_utc :
  iso_parse "2024-03-01T00:00:00+00:00" = Ok (mkdatetime 2024 3 1 0 0 0 0 (Some 0)).
Proof. reflexivity. Qed.

Example iso_parse_offset :
  iso_parse "2024-01-01T00:30:00+05:00"
  = Ok (mkdatetime 2024 1 1 0 30 0 0 (Some 18000000000)).
Proof. reflexivity. Qed.

Example iso_parse_fraction :
  iso_parse "2023-12-31T23:59:59.123-01:30"
  = Ok (mkdatetime 2023 12 31 23 59 59 123000 (Some (-5400000000))).
Proof. reflexivity. Qed.

Example iso_parse_date : iso_parse "2024-02-29" = Ok (mkdatetime 2024 2 29 0 0 0 0 None).
Proof. reflexivity. Qed.

Example iso_parse_bad_day : iso_parse "2023-02-29" = Raise ValueError.
Proof. reflexivity. Qed.

Example iso_parse_garbage : iso_parse "not-a-date" = Raise ValueError.
Proof. reflexivity. Qed.

(** ** The scenarios of the specification *)

Example scenario_metrics :
  stats_items (process_stats iso_parse no_repr (UserRecord.encode scenario) init_State)
  = [ mkstat "Total Articles" "1" "Articles published in 2024";
      mkstat "Total Views" "100" "Content views in 2024";
      mkstat "Total Reactions" "10" "Reactions in 2024";
      mkstat "Followers" "10" "Total followers";
      mkstat "Badges Earned" "1" "Total badges collected";
      mkstat "Avg. Reactions" "10.0" "Average reactions per post" ].
Proof. vm_compute. reflexivity. Qed.

Example no_posts_metrics :
  stats_items (process_stats iso_parse no_repr (UserRecord.encode no_posts) init_State)
  = [ mkstat "Total Articles" "0" "Articles published in 2024";
      mkstat "Total Views" "0" "Content views in 2024";
      mkstat "Total Reactions" "0" "Reactions in 2024";
      mkstat "Followers" "0" "Total followers";
      mkstat "Badges Earned" "0" "Total badges collected";
      mkstat "Avg. Reactions" "0" "Average reactions per post" ].
Proof. vm_compute. reflexivity. Qed.

Example three_posts_metrics :
  stats_items (process_stats iso_parse no_repr (UserRecord.encode three_posts) init_State)
  = [ mkstat "Total Articles" "3" "Articles published in 2024";
      mkstat "Total Views" "1,234,567" "Content views in 2024";
      mkstat "Total Reactions" "12345" "Reactions in 2024";
      mkstat "Followers" "7" "Total followers";
      mkstat "Badges Earned" "0" "Total badges collected";
      mkstat "Avg. Reactions" "4115.0" "Average reactions per post" ].
Proof. vm_compute. reflexivity. Qed.

(** The mean 3/20 is 0.15; the binary64 quotient lies just below it and is
    shown as 0.1. *)
Example twenty_posts_average :
  metric "Avg. Reactions"
    (process_stats iso_parse no_repr (UserRecord.encode twenty_posts) init_State)
  = Some "0.1".
Proof. vm_compute. reflexivity. Qed.



Lemma published_2023 :
  published_year iso_parse (UserRecord.encode_post post_2023) 2023.
Proof.
  eexists _, _, _. split; [reflexivity|]. split; [reflexivity|].
  split; reflexivity.
Defined.

Lemma year_filter_excludes_witness :
  published_year iso_parse (UserRecord.encode_post post_2023) 2023 /\
  2023 <> 2024 /\
  post_count
    (process_stats iso_parse no_repr (UserRecord.encode scenario) init_State)
  = post_count
      (process_stats iso_parse no_repr (UserRecord.encode good_alone) init_State).
Proof.
  split; [exact published_2023|]. split; [discriminate|].
  destruct (year_filter_excludes iso_parse no_repr
              (UserRecord.encode_fields scenario)
              [UserRecord.encode_post post_2024] []
              (UserRecord.encode_post post_2023) 2023 init_State
              published_2023 ltac:(discriminate)) as [[H _] _].
  exact H.
Defined.

Lemma degrade_to_empty_witness :
  snd (process_stats_try iso_parse no_repr (VList [VInt 1]) init_State)
  = Raise AttributeError /\
  stats_items (process_stats iso_parse no_repr (VList [VInt 1]) init_State) = [] /\
  post_count (process_stats iso_parse no_repr (VList [VInt 1]) init_State) = 0.
Proof.
  split; [reflexivity|].
  destruct (degrade_to_empty iso_parse no_repr (VList [VInt 1]) init_State
              AttributeError eq_refl) as (H1 & H2 & _).
  split; assumption.
Defined.

Lemma succeeds_scenario :
  succeeds iso_parse no_repr (UserRecord.encode scenario) init_State.
Proof. vm_compute. reflexivity. Defined.



(** C4, as the claim has it: the unreadable timestamp of the first post
    is not dropped alone; the aggregation shows nothing, although the
    second post is one of 2024 and is counted when the first is away. *)
Lemma unreadable_post_not_dropped :
  stats_items
    (process_stats iso_parse no_repr (UserRecord.encode unreadable_then_good) init_State)
  = [] /\
  post_count
    (process_stats iso_parse no_repr (UserRecord.encode unreadable_then_good) init_State)
  = 0 /\
  post_count
    (process_stats iso_parse no_repr (UserRecord.encode good_alone) init_State)
  = 1.
Proof. vm_compute. repeat split. Qed.

Lemma missing_dropped_unreadable_degrades_witness :
  missing_timestamp (UserRecord.encode_post post_untimed) /\
  unreadable_timestamp iso_parse (UserRecord.encode_post post_unreadable) /\
  post_count
    (process_stats iso_parse no_repr (UserRecord.encode untimed_then_good) init_State)
  = post_count
      (process_stats iso_parse no_repr (UserRecord.encode good_alone) init_State) /\
  stats_items
    (process_stats iso_parse no_repr (UserRecord.encode unreadable_then_good) init_State)
  = [].
Proof.
  assert (Hm : missing_timestamp (UserRecord.encode_post post_untimed)).
  { eexists. split; [reflexivity|]. exact I. }
  assert (Hu : unreadable_timestamp iso_parse (UserRecord.encode_post post_unreadable)).
  { eexists _, _, ValueError. split; [reflexivity|]. split; [reflexivity|].
    split; [discriminate|reflexivity]. }
  split; [exact Hm|]. split; [exact Hu|].
  destruct (missing_dropped_unreadable_degrades iso_parse no_repr
              (UserRecord.encode_fields good_alone) init_State) as [H1 H2].
  split.
  - destruct (H1 [] [UserRecord.encode_post post_2024] _ Hm) as [H _]. exact H.
  - destruct (H2 [UserRecord.encode_post post_unreadable; UserRecord.encode_post post_2024]
                 _ (or_introl eq_refl) Hu) as [H _].
    exact H.
Defined.

(** C5, as the claim has it: the post of [east_only] is counted, although
    its instant lies in 2023 in UTC, and the post of [west_only] is not,
    although its instant lies in 2024 in UTC. *)
Lemma year_is_not_utc :
  post_count
    (process_stats iso_parse no_repr (UserRecord.encode east_only) init_State) = 1 /\
  (exists dt, iso_parse "2024-01-01T00:30:00+05:00" = Ok dt /\ utc_year dt = 2023) /\
  post_count
    (process_stats iso_parse no_repr (UserRecord.encode west_only) init_State) = 0 /\
  (exists dt, iso_parse "2023-12-31T23:30:00-05:00" = Ok dt /\ utc_year dt = 2024).
Proof.
  split; [vm_compute; reflexivity|].
  split; [eexists; split; [reflexivity|vm_compute; reflexivity]|].
  split; [vm_compute; reflexivity|].
  eexists; split; [reflexivity|vm_compute; reflexivity].
Qed.

Lemma year_as_written_witness :
  in_2024 iso_parse (UserRecord.encode_post post_east) = Ok true /\
  utc_year (mkdatetime 2024 3 1 0 0 0 0 (Some 0)) = 2024.
Proof.
  destruct (year_as_written iso_parse) as (H1 & _ & H3).
  split.
  - apply (H1 [("publishedAt", VStr "2024-01-01T00:30:00+05:00");
               ("views", VInt 1); ("reactionCount", VInt 1)]
              "2024-01-01T00:30:00+05:00"
              (mkdatetime 2024 1 1 0 30 0 0 (Some 18000000000))).
    + reflexivity.
    + discriminate.
    + reflexivity.
  - apply H3.
    + right. reflexivity.
    + cbv. split; [discriminate|reflexivity].
Defined.

(** ** The scenarios of the fetch *)

Lemma guards_alice (r : reply) :
  guards_pass (Some "token") (session_of r).
Proof. split; [discriminate|reflexivity]. Defined.

Example status_401 :
  error_message
    (app (fst (handle_submit iso_parse no_repr (Some "token") no_text
                 (session_of (Responded (mkresponse 401 (Raise JSONDecodeError) "401"))))))
  = Some "Invalid access token. Please check your configuration.".
Proof. vm_compute. reflexivity. Qed.

Example errors_authentication :
  error_message
    (app (fst (handle_submit iso_parse no_repr (Some "token") no_text
                 (session_of (Responded (mkresponse 200 (Ok body_authentication) ""))))))
  = Some "Invalid access token. Please check your configuration.".
Proof. vm_compute. reflexivity. Qed.

(** "authentication" is not a substring of "user not authenticated": this
    message is reported as an error of the API. *)
Example errors_not_authenticated :
  error_message
    (app (fst (handle_submit iso_parse no_repr (Some "token") no_text
                 (session_of (Responded (mkresponse 200 (Ok body_unauthenticated) ""))))))
  = Some "API Error: User not authenticated".
Proof. vm_compute. reflexivity. Qed.

Example errors_other :
  error_message
    (app (fst (handle_submit iso_parse no_repr (Some "token") no_text
                 (session_of (Responded (mkresponse 200 (Ok body_other_error) ""))))))
  = Some "API Error: Rate limit exceeded".
Proof. vm_compute. reflexivity. Qed.

Example user_null :
  error_message
    (app (fst (handle_submit iso_parse no_repr (Some "token") no_text
                 (session_of (Responded (mkresponse 200 (Ok body_no_user) ""))))))
  = Some "User not found".
Proof. vm_compute. reflexivity. Qed.

Example user_found :
  let out := handle_submit iso_parse no_repr (Some "token") no_text
               (session_of (Responded (mkresponse 200 (Ok body_scenario) ""))) in
  snd out = Ok (Some "/stats") /\
  error_message (app (fst out)) = None /\
  is_loading (app (fst out)) = false /\
  metric "Total Articles" (app (fst out)) = Some "1".
Proof. vm_compute. repeat split. Qed.

Lemma http_outcomes_witness :
  guards_pass (Some "token")
    (session_of (Responded (mkresponse 404 (Raise JSONDecodeError) "404 Not Found"))) /\
  reports (Some "token")
    (session_of (Responded (mkresponse 404 (Raise JSONDecodeError) "404 Not Found")))
    "HTTP Error: 404 Not Found"
    (handle_submit iso_parse no_repr (Some "token") no_text
       (session_of (Responded (mkresponse 404 (Raise JSONDecodeError) "404 Not Found")))).
Proof.
  split; [apply guards_alice|].
  destruct (http_outcomes iso_parse no_repr (Some "token") no_text _
              (guards_alice (Responded (mkresponse 404 (Raise JSONDecodeError)
                                          "404 Not Found")))) as [H _].
  destruct (H _ eq_refl) as (_ & _ & H404).
  apply H404; cbn; lia.
Defined.

(** "AUTHENTICATION required" mentions the word in capitals; "User not
    authenticated" mentions neither word. *)
Lemma mentions_authentication :
  mentions "authentication" "AUTHENTICATION required".
Proof.
  exists "", "AUTHENTICATION", " required". split; [reflexivity|].
  cbn [same_ignoring_case].
  repeat (split; [right; left; split; reflexivity|]). exact I.
Defined.

Lemma body_outcomes_witness :
  guards_pass (Some "token")
    (session_of (Responded (mkresponse 200 (Ok body_authentication) ""))) /\
  mentions "authentication" "AUTHENTICATION required" /\
  reports (Some "token")
    (session_of (Responded (mkresponse 200 (Ok body_authentication) "")))
    "Invalid access token. Please check your configuration."
    (handle_submit iso_parse no_repr (Some "token") no_text
       (session_of (Responded (mkresponse 200 (Ok body_authentication) "")))) /\
  reports (Some "token")
    (session_of (Responded (mkresponse 200 (Ok body_unauthenticated) "")))
    "API Error: User not authenticated"
    (handle_submit iso_parse no_repr (Some "token") no_text
       (session_of (Responded (mkresponse 200 (Ok body_unauthenticated) "")))).
Proof.
  split; [apply guards_alice|]. split; [exact mentions_authentication|]. split.
  - destruct (body_outcomes iso_parse no_repr (Some "token") no_text
                (session_of (Responded (mkresponse 200 (Ok body_authentication) "")))
                (mkresponse 200 (Ok body_authentication) "")
                [("errors", VList [VDict [("message", VStr "AUTHENTICATION required")]])]
                (guards_alice _) eq_refl ltac:(cbn; lia) eq_refl) as [H _].
    destruct (H _ _ "AUTHENTICATION required" eq_refl eq_refl) as [Hyes _].
    exact (Hyes (or_intror mentions_authentication)).
  - destruct (body_outcomes iso_parse no_repr (Some "token") no_text
                (session_of (Responded (mkresponse 200 (Ok body_unauthenticated) "")))
                (mkresponse 200 (Ok body_unauthenticated) "")
                [("errors", VList [VDict [("message", VStr "User not authenticated")]])]
                (guards_alice _) eq_refl ltac:(cbn; lia) eq_refl) as [H _].
    destruct (H _ _ "User not authenticated" eq_refl eq_refl) as (_ & Hno & _).
    apply Hno; intros Hm.
    + apply (substringb_lower "unauthorized" _ eq_refl) in Hm. discriminate Hm.
    + apply (substringb_lower "authentication" _ eq_refl) in Hm. discriminate Hm.
Defined.

(** ** The aggregation on a store *)

(** The run allocates the two defaults and the list of the retained
    posts, which holds the reference of the post itself; the four objects
    of the record are as they were. *)
Example sample_store_after :
  let w' := ref_process_stats iso_parse no_ref_repr (HRef 3) sample_world in
  heap w' = (sample_heap ++ [HDict []; HList []; HList [HRef 0]])%list /\
  r_user_data (me w') = HRef 3 /\
  r_posts_2024 (me w') = HRef 6 /\
  r_post_count (me w') = 1 /\
  map value (r_stats_items (me w')) = ["1"; "100"; "10"; "10"; "0"; "10.0"].
Proof. vm_compute. repeat split. Qed.

Lemma sample_denotes :
  denotes sample_heap (HRef 3)
    (VDict [("followersCount", VInt 10);
            ("posts", VDict [("nodes",
               VList [VDict [("publishedAt", VStr "2024-03-01T00:00:00Z");
                             ("views", VInt 100); ("reactionCount", VInt 10)]])])]).
Proof.
  cbn. eexists _, _. split; [reflexivity|]. split; [reflexivity|].
  split; [reflexivity|]. split; [reflexivity|]. split; [reflexivity|].
  split; [|exact I].
  eexists _, _. split; [reflexivity|]. split; [reflexivity|].
  split; [reflexivity|]. split; [|exact I].
  eexists _, _. split; [reflexivity|]. split; [reflexivity|].
  split; [|exact I].
  eexists _, _. split; [reflexivity|]. split; [reflexivity|].
  repeat split.
Qed.

(** ** Runs for the further properties *)

Lemma unexpected_errors_witness :
  guards_pass (Some "token")
    (session_of (Responded (mkresponse 200 (Ok body_empty_errors) ""))) /\
  reports (Some "token")
    (session_of (Responded (mkresponse 200 (Ok body_empty_errors) "")))
    "An unexpected error occurred: "
    (handle_submit iso_parse no_repr (Some "token") no_text
       (session_of (Responded (mkresponse 200 (Ok body_empty_errors) "")))).
Proof.
  split; [apply guards_alice|].
  destruct (unexpected_errors iso_parse no_repr (Some "token") no_text
              (session_of (Responded (mkresponse 200 (Ok body_empty_errors) "")))
              (mkresponse 200 (Ok body_empty_errors) "")
              (guards_alice _) eq_refl ltac:(cbn; lia)) as (_ & H & _).
  exact (H [("errors", VList [])] eq_refl eq_refl).
Defined.

Lemma redirect_with_no_stats_witness :
  guards_pass (Some "token")
    (session_of (Responded (mkresponse 200 (Ok body_list_user) ""))) /\
  snd (handle_submit iso_parse no_repr (Some "token") no_text
         (session_of (Responded (mkresponse 200 (Ok body_list_user) ""))))
  = Ok (Some "/stats") /\
  stats_items
    (app (fst (handle_submit iso_parse no_repr (Some "token") no_text
                 (session_of (Responded (mkresponse 200 (Ok body_list_user) ""))))))
  = [].
Proof.
  split; [apply guards_alice|].
  destruct (redirect_with_no_stats iso_parse no_repr (Some "token") no_text
              (session_of (Responded (mkresponse 200 (Ok body_list_user) "")))
              (mkresponse 200 (Ok body_list_user) "")
              [("data", VDict [("user", VList [VInt 1])])]
              [("user", VList [VInt 1])] (VList [VInt 1]) AttributeError
              (guards_alice _) eq_refl ltac:(cbn; lia) eq_refl eq_refl eq_refl
              eq_refl eq_refl eq_refl) as (H1 & _ & _ & H4 & _).
  split; [exact H1|exact H4].
Defined.

Lemma non_number_field_degrades_witness :
  comprehension (in_2024 iso_parse) [post_null_views] = Ok [post_null_views] /\
  not_summable VNone /\
  stats_items (process_stats iso_parse no_repr (with_nodes [] [post_null_views])
                 init_State) = [] /\
  posts_2024 (process_stats iso_parse no_repr (with_nodes [] [post_null_views])
                init_State) = [post_null_views].
Proof.
  split; [reflexivity|]. split; [exact I|].
  destruct (non_number_field_degrades iso_parse no_repr [] [post_null_views]
              [post_null_views] post_null_views VNone "views" init_State
              eq_refl (or_introl eq_refl) (or_introl eq_refl) eq_refl I)
    as (H1 & _ & H3).
  split; [exact H1|exact H3].
Defined.

Lemma absent_posts_count_zero_witness :
  badge_total (VDict []) = Ok 0 /\
  metric "Avg. Reactions" (process_stats iso_parse no_repr (VDict []) init_State)
  = Some "0".
Proof.
  split; [reflexivity|].
  destruct (absent_posts_count_zero iso_parse no_repr [] init_State 0
              (or_introl eq_refl) eq_refl) as (_ & _ & _ & _ & _ & _ & _ & H).
  exact H.
Defined.

Lemma timestamp_without_Z_witness :
  all_chars (fun c => negb (Ascii.eqb c "Z")) "2024-01-01T00:30:00+05:00" = true /\
  in_2024 iso_parse (UserRecord.encode_post post_east) = Ok true.
Proof.
  split; [reflexivity|].
  exact (timestamp_without_Z iso_parse
           [("publishedAt", VStr "2024-01-01T00:30:00+05:00");
            ("views", VInt 1); ("reactionCount", VInt 1)]
           "2024-01-01T00:30:00+05:00" eq_refl ltac:(discriminate) eq_refl).
Defined.

Lemma non_string_timestamp_degrades_witness :
  truthy (VInt 1709251200) = true /\
  stats_items (process_stats iso_parse no_repr
                 (with_nodes [] [post_numeric_time]) init_State) = [].
Proof.
  split; [reflexivity|].
  destruct (non_string_timestamp_degrades iso_parse no_repr [] [post_numeric_time]
              [("publishedAt", VInt 1709251200); ("views", VInt 1)]
              (VInt 1709251200) init_State
              (or_introl eq_refl) eq_refl eq_refl ltac:(discriminate))
    as (H & _).
  exact H.
Defined.

Lemma retained_are_2024_witness :
  succeeds iso_parse no_repr (UserRecord.encode scenario) init_State /\
  post_count (process_stats iso_parse no_repr (UserRecord.encode scenario) init_State)
  <= 2.
Proof.
  split; [exact succeeds_scenario|].
  destruct (retained_are_2024 iso_parse no_repr (UserRecord.encode scenario)
              init_State succeeds_scenario) as (items & Hi & _ & Hc & _).
  injection Hi as <-. exact Hc.
Defined.

(** The link of the scenario, and of a state without metrics. *)
Example share_scenario :
  snd (share_stats
         (process_stats iso_parse no_repr (UserRecord.encode scenario) init_State))
  = Ok "https://twitter.com/intent/tweet?text=Check%20out%20my%20%40hashnode%20Wrapped%202024%21%0A%0ATotal%20Articles%3A%201%20%7C%20Total%20Views%3A%20100%20%7C%20Total%20Reactions%3A%2010%0A%0AGenerate%20yours%20at%20https%3A//hashnode_wrapped_2-gold-panda.reflex.run%20by%20%40sophiairoegbu_%0A%0A%23HashnodeWrapped".
Proof. vm_compute. reflexivity. Qed.

Example share_nothing :
  snd (share_stats init_State)
  = Ok "https://twitter.com/intent/tweet?text=Check%20out%20my%20%40hashnode%20Wrapped%202024%21%0A%0A%0A%0AGenerate%20yours%20at%20https%3A//hashnode_wrapped_2-gold-panda.reflex.run%20by%20%40sophiairoegbu_%0A%0A%23HashnodeWrapped".
Proof. vm_compute. reflexivity. Qed.


Lemma guards_block_witness :
  username (app nameless_session) = "" /\
  handle_submit iso_parse no_repr None no_text nameless_session =
  (on_app (set_error_message (Some "Please enter a username")) nameless_session,
   Ok None) /\
  sent (fst (handle_submit iso_parse no_repr None no_text nameless_session)) = [].
Proof.
  split; [reflexivity|].
  destruct (guards_block iso_parse no_repr None no_text nameless_session)
    as (H1 & _ & H3).
  split; [exact (H1 eq_refl)|].
  exact (proj1 (H3 (or_introl eq_refl))).
Defined.

Lemma submit_never_raises_witness :
  is_loading
    (app (fst (handle_submit iso_parse no_repr (Some "token") no_text
                 (session_of (Failed (RequestError "timed out")))))) = false.
Proof.
  exact (proj2 (submit_never_raises iso_parse no_repr (Some "token") no_text
                  (session_of (Failed (RequestError "timed out"))))
               (guards_alice _)).
Defined.

Lemma redirect_or_message_witness :
  error_message
    (app (fst (handle_submit iso_parse no_repr (Some "token") no_text
                 (session_of (Responded (mkresponse 200 (Ok body_scenario) ""))))))
  = None /\
  exists m,
    error_message
      (app (fst (handle_submit iso_parse no_repr (Some "token") no_text
                   (session_of (Responded (mkresponse 200 (Ok body_no_user) ""))))))
    = Some m.
Proof.
  split.
  - exact (proj2 (proj2
             (proj1 (redirect_or_message iso_parse no_repr (Some "token") no_text
                       (session_of (Responded (mkresponse 200 (Ok body_scenario) ""))))
                    "/stats" eq_refl))).
  - exact (proj2 (redirect_or_message iso_parse no_repr (Some "token") no_text
                    (session_of (Responded (mkresponse 200 (Ok body_no_user) ""))))
                 eq_refl).
Defined.

Lemma degraded_keeps_retained_posts_witness :
  let s := process_stats iso_parse no_repr (UserRecord.encode scenario) init_State in
  posts_2024 (process_stats iso_parse no_repr
                (UserRecord.encode unreadable_then_good) s)
  = [UserRecord.encode_post post_2024] /\
  posts_2024 (process_stats iso_parse no_repr (with_nodes [] [post_null_views]) s)
  = [post_null_views].
Proof.
  intros s.
  destruct (degraded_keeps_retained_posts iso_parse no_repr
              (UserRecord.encode unreadable_then_good) s) as (H1 & _).
  destruct (degraded_keeps_retained_posts iso_parse no_repr
              (with_nodes [] [post_null_views]) s) as (_ & H2).
  split.
  - refine (eq_trans (proj1 (H1 ValueError (or_intror (ex_intro _ _ (conj eq_refl _))))) _);
      reflexivity.
  - exact (proj1 (H2 [post_null_views] [post_null_views] TypeError
                     eq_refl eq_refl eq_refl)).
Defined.

Lemma share_after_aggregation_witness :
  join " | "
    (stats_summary
       (stats_items (process_stats iso_parse no_repr (UserRecord.encode scenario)
                       init_State)))
  = "Total Articles: 1 | Total Views: 100 | Total Reactions: 10".
Proof.
  destruct (share_after_aggregation iso_parse no_repr (UserRecord.encode scenario)
              init_State) as (_ & H & _).
  destruct (H succeeds_scenario) as (views & reactions & Hv & Hr & Hj).
  rewrite Hj. vm_compute in Hv, Hr.
  injection Hv as <-. injection Hr as <-. reflexivity.
Defined.
